(** * Shopify / POS price and stock reconciliation (decountCondition.py)

    A shallow embedding of [src/decountCondition.py] and the properties of
    its reconciliation logic.

    Layout:
    - the Python values the script manipulates (decoded JSON, strings,
      binary64 floats, exceptions) and the builtins it calls on them;
    - the script's functions, in the order of the source file, with the
      console lines and HTTP requests they produce recorded in a trace;
    - lemmas on the arithmetic, then the properties of each function. *)

From Stdlib Require Import ZArith Lia Bool List String Ascii DecimalString Floats.
From stdpp Require Import base option gmap strings.
Import ListNotations.

Local Open Scope string_scope.
Local Open Scope list_scope.
Local Open Scope Z_scope.

(* ===================================================================== *)
(** ** Exceptions and the two effects of the script *)
(* ===================================================================== *)

(** The exception classes that the script's statements can raise.  Every
    subclass of [requests.exceptions.RequestException] (connection errors,
    timeouts, [HTTPError] from [raise_for_status], the [JSONDecodeError] of
    [Response.json]) is the single [RequestException]: the script never
    tells them apart. *)
Inductive exn : Type :=
| RequestException | AttributeError | KeyError | IndexError
| TypeError | ValueError | OverflowError | RecursionError.

Inductive outcome (A : Type) : Type :=
| Ok (a : A)
| Raise (e : exn).
Arguments Ok {A} a.
Arguments Raise {A} e.

Definition obind {A B : Type} (o : outcome A) (f : A -> outcome B) : outcome B :=
  match o with
  | Ok a => f a
  | Raise e => Raise e
  end.

Notation "'let?' x ':=' c 'in' k" := (obind c (fun x => k))
  (at level 10, x name, c at level 100, k at level 200,
   format "'[v' 'let?'  x  :=  c  'in'  '/' k ']'").

(* ===================================================================== *)
(** ** Characters and strings *)
(* ===================================================================== *)

(** A Python [str] is modelled as a Rocq [string]: a sequence of characters
    with code points 0..255 (the Latin-1 range of Unicode).  The character
    classes below are those of CPython on that range. *)

Definition code (c : ascii) : Z := Z.of_N (N_of_ascii c).

Definition in_range (lo hi : Z) (c : ascii) : bool :=
  (lo <=? code c) && (code c <=? hi).

(** [str.isprintable]: every character except the categories Other and
    Separator, the ASCII space excepted.  On 0..255 the non-printable ones
    are the C0 and C1 controls, DEL, the no-break space and the soft
    hyphen. *)
Definition isprintable (c : ascii) : bool :=
  in_range 32 126 c || (in_range 161 255 c && negb (code c =? 173)).

(** [str.isspace], the characters [str.strip()] removes. *)
Definition isspace (c : ascii) : bool :=
  in_range 9 13 c || in_range 28 32 c || (code c =? 133) || (code c =? 160).

(** [Py_ISSPACE], the C-locale white space [float()] strips. *)
Definition c_isspace (c : ascii) : bool :=
  in_range 9 13 c || (code c =? 32).

Definition isdigit (c : ascii) : bool := in_range 48 57 c.

Fixpoint filter_string (p : ascii -> bool) (s : string) : string :=
  match s with
  | EmptyString => EmptyString
  | String c r => if p c then String c (filter_string p r) else filter_string p r
  end.

Fixpoint forall_string (p : ascii -> bool) (s : string) : bool :=
  match s with
  | EmptyString => true
  | String c r => p c && forall_string p r
  end.

(** [sub in s] for two strings. *)
Definition str_contains (sub s : string) : bool :=
  match String.index 0 sub s with
  | Some _ => true
  | None => false
  end.

(* ===================================================================== *)
(** ** Binary64 floats *)
(* ===================================================================== *)

(** A Python [float] is an IEEE 754 binary64 number.  Every finite one is
    an integer multiple of 2^-1074 (the least subnormal), so [Fin k] stands
    for the number [k * 2^-1074].  The sign of zero is not kept: the script
    never divides, and comparison, [abs], [int()] and [round()] do not see
    it. *)
Inductive pyfloat : Type :=
| Fin (k : Z)
| Inf (neg : bool)
| NaN.

(** One unit: the float 1.0 is [Fin one]. *)
Definition one : Z := 2 ^ 1074.

(** [a / b] rounded to the nearest integer, ties to even ([0 <= a], [0 < b]);
    [q] and [r] are the quotient and the remainder. *)
Definition rne (a b : Z) : Z :=
  let '(q, r) := Z.div_eucl a b in
  if 2 * r <? b then q
  else if b <? 2 * r then q + 1
  else if Z.even q then q else q + 1.

(** [Z.log2 (a / d)], the position of the leading bit of the quotient
    ([0 <= a], [0 < d]), found without dividing. *)
Definition log2_quot (a d : Z) : Z :=
  let k := Z.log2 a - Z.log2 d in
  if a <? d then 0
  else if d * 2 ^ k <=? a then k else k - 1.

(** [n / d] (in units of 2^-1074, [0 < d]) rounded to a binary64 number:
    below 2^53 units the spacing is one unit (the subnormals and the first
    binade); above, the 53 leading bits are kept. *)
Definition round_b64 (n d : Z) : Z :=
  let a := Z.abs n in
  let sh := Z.max (log2_quot a d - 52) 0 in
  Z.sgn n * (rne a (d * 2 ^ sh) * 2 ^ sh).

(** The largest finite float is [(2^53 - 1) * 2^2045] units; a result that
    rounds to 2^2098 units or more overflows to an infinity. *)
Definition fin_round (n d : Z) : pyfloat :=
  let k := round_b64 n d in
  if 2 ^ 2098 <=? Z.abs k then Inf (n <? 0) else Fin k.

(** The float nearest to the rational [n / d]. *)
Definition of_ratio (n d : Z) : pyfloat := fin_round (n * one) d.

(** The float nearest to the decimal [m * 10^e]: how Python reads a float
    literal and how [float()] reads a decimal string. *)
Definition of_decimal (m e : Z) : pyfloat :=
  if 0 <=? e then of_ratio (m * 10 ^ e) 1 else of_ratio m (10 ^ (- e)).

Definition fneg (x : pyfloat) : pyfloat :=
  match x with
  | Fin k => Fin (- k)
  | Inf s => Inf (negb s)
  | NaN => NaN
  end.

Definition fabs (x : pyfloat) : pyfloat :=
  match x with
  | Fin k => Fin (Z.abs k)
  | Inf _ => Inf false
  | NaN => NaN
  end.

(** [x * y] *)
Definition fmul (x y : pyfloat) : pyfloat :=
  match x, y with
  | NaN, _ | _, NaN => NaN
  | Fin a, Fin b => fin_round (a * b) one
  | Inf s, Fin b | Fin b, Inf s =>
      if b =? 0 then NaN else Inf (xorb s (b <? 0))
  | Inf s, Inf s' => Inf (xorb s s')
  end.

(** [x - y] *)
Definition fsub (x y : pyfloat) : pyfloat :=
  match x, y with
  | NaN, _ | _, NaN => NaN
  | Fin a, Fin b => fin_round (a - b) 1
  | Inf s, Fin _ => Inf s
  | Fin _, Inf s => Inf (negb s)
  | Inf s, Inf s' => if Bool.eqb s s' then NaN else Inf s
  end.

(** Comparison of two floats; [None] when one of them is a NaN, which makes
    every ordering test false. *)
Definition fcompare (x y : pyfloat) : option comparison :=
  match x, y with
  | NaN, _ | _, NaN => None
  | Fin a, Fin b => Some (a ?= b)
  | Inf s, Inf s' => Some (if Bool.eqb s s' then Eq else if s then Lt else Gt)
  | Inf s, Fin _ => Some (if s then Lt else Gt)
  | Fin _, Inf s => Some (if s then Gt else Lt)
  end.

(** [x > y] and [x <= y] *)
Definition fgt (x y : pyfloat) : bool :=
  match fcompare x y with Some Gt => true | _ => false end.

Definition fle (x y : pyfloat) : bool :=
  match fcompare x y with Some Lt | Some Eq => true | _ => false end.

(** [x > n] for a float [x] and an int [n]: Python compares the two exactly,
    without converting the int. *)
Definition fgt_int (x : pyfloat) (n : Z) : bool :=
  match x with
  | Fin k => n * one <? k
  | Inf s => negb s
  | NaN => false
  end.

(** [float(n)] for an int: the nearest float, [OverflowError] when that is
    not finite.  The same conversion is applied to the int operand of a
    mixed [float - int]. *)
Definition float_of_int (n : Z) : outcome pyfloat :=
  match fin_round (n * one) 1 with
  | Fin k => Ok (Fin k)
  | _ => Raise OverflowError
  end.

(** [int(x)] for a float: truncation towards zero. *)
Definition int_of_float (x : pyfloat) : outcome Z :=
  match x with
  | Fin k => Ok (Z.quot k one)
  | Inf _ => Raise OverflowError
  | NaN => Raise ValueError
  end.

(** [round(x, 2)]: the decimal with two fractional digits nearest to [x]
    (ties to even), read back as a float.  Infinities and NaN round to
    themselves. *)
Definition py_round2 (x : pyfloat) : pyfloat :=
  match x with
  | Fin k =>
      let h := Z.sgn k * rne (100 * Z.abs k) one in
      fin_round (h * one) 100
  | _ => x
  end.

(** The literals [1.15] and [0.01] of the source. *)
Definition c1_15 : pyfloat := of_decimal 115 (-2).
Definition c0_01 : pyfloat := of_decimal 1 (-2).

(** The value of a hardware float ([PrimFloat]) in this representation; used
    only to check the rounding above against the machine's arithmetic. *)
Definition of_prim (f : float) : pyfloat :=
  match Prim2SF f with
  | S754_zero _ => Fin 0
  | S754_infinity s => Inf s
  | S754_nan => NaN
  | S754_finite s m e =>
      Fin ((if s then -1 else 1) * (Z.pos m * 2 ^ (e + 1074)))
  end.

(* ===================================================================== *)
(** ** [float()] of a string *)
(* ===================================================================== *)

(** [PyFloat_FromString]: non-ASCII white space becomes a space and any
    other non-ASCII character is an error; an underscore must stand between
    two digits and is dropped; C white space is stripped at both ends; what
    is left must be a decimal number or a spelling of infinity or NaN. *)

Fixpoint ascii_spaces (l : list ascii) : option (list ascii) :=
  match l with
  | [] => Some []
  | c :: r =>
      if code c <? 127 then option_map (cons c) (ascii_spaces r)
      else if isspace c then option_map (cons " "%char) (ascii_spaces r)
      else None
  end.

Definition to_ascii (l : list ascii) : option (list ascii) :=
  if forallb (fun c => code c <? 128) l then Some l else ascii_spaces l.

Definition is_underscore (c : ascii) : bool := code c =? 95.

(** [prev] is the class of the previous character: 0 none or other, 1 a
    digit, 2 an underscore. *)
Fixpoint drop_underscores (prev : Z) (l : list ascii) : option (list ascii) :=
  match l with
  | [] => if prev =? 2 then None else Some []
  | c :: r =>
      if is_underscore c then
        if prev =? 1 then drop_underscores 2 r else None
      else if (prev =? 2) && negb (isdigit c) then None
      else option_map (cons c) (drop_underscores (if isdigit c then 1 else 0) r)
  end.

Fixpoint lstrip (l : list ascii) : list ascii :=
  match l with
  | c :: r => if c_isspace c then lstrip r else l
  | [] => []
  end.

Definition c_strip (l : list ascii) : list ascii :=
  rev (lstrip (rev (lstrip l))).

(** Reads digits: the number so far, how many digits were read, the rest. *)
Fixpoint take_digits (l : list ascii) (acc cnt : Z) : Z * Z * list ascii :=
  match l with
  | c :: r =>
      if isdigit c then take_digits r (10 * acc + (code c - 48)) (cnt + 1)
      else (acc, cnt, l)
  | [] => (acc, cnt, [])
  end.

Definition take_sign (l : list ascii) : bool * list ascii :=
  match l with
  | c :: r =>
      if code c =? 45 then (true, r)
      else if code c =? 43 then (false, r)
      else (false, l)
  | [] => (false, [])
  end.

(** An unsigned decimal [digits [. digits] [(e|E) [sign] digits]] with at
    least one digit before the exponent, as mantissa and power of ten. *)
Definition parse_decimal (l : list ascii) : option (Z * Z) :=
  let '(ip, ni, r1) := take_digits l 0 0 in
  let '(m, nf, r2) :=
    match r1 with
    | c :: r => if code c =? 46 then take_digits r ip 0 else (ip, 0, r1)
    | [] => (ip, 0, r1)
    end in
  if ni + nf =? 0 then None
  else
    match r2 with
    | [] => Some (m, - nf)
    | c :: r3 =>
        if (code c =? 101) || (code c =? 69) then
          let '(eneg, r4) := take_sign r3 in
          let '(ev, ne, r5) := take_digits r4 0 0 in
          match r5 with
          | [] => if ne =? 0 then None
                  else Some (m, (if eneg then - ev else ev) - nf)
          | _ :: _ => None
          end
        else None
    end.

Definition lower (c : ascii) : ascii :=
  if in_range 65 90 c then ascii_of_N (Z.to_N (code c + 32)) else c.

Definition is_word (w : string) (l : list ascii) : bool :=
  bool_decide (string_of_list_ascii (map lower l) = w).

Definition float_of_string (s : string) : outcome pyfloat :=
  match to_ascii (list_ascii_of_string s) with
  | None => Raise ValueError
  | Some l1 =>
      match drop_underscores 0 l1 with
      | None => Raise ValueError
      | Some l2 =>
          let '(neg, body) := take_sign (c_strip l2) in
          match parse_decimal body with
          | Some (m, e) => Ok (of_decimal (if neg then - m else m) e)
          | None =>
              if is_word "inf" body || is_word "infinity" body then Ok (Inf neg)
              else if is_word "nan" body then Ok NaN
              else Raise ValueError
          end
      end
  end.

(* ===================================================================== *)
(** ** Decoded JSON values and the builtins applied to them *)
(* ===================================================================== *)

(** What [Response.json()] returns.  A number written without fraction or
    exponent is a Python [int]; [JDec m e] is a number written with them,
    [m * 10^e], which Python reads as the nearest float; [json.loads] also
    accepts the words Infinity, -Infinity and NaN.  [JObj] lists the items
    of a [dict], whose keys are distinct.  A zero written with a minus
    sign, which Python reads as the float -0.0, is not among these values;
    an int of more than 4300 digits is, as [resp.json()] returns it where
    the limit of CPython is lifted (with the limit, see [Refused]). *)
#[local] Set Warnings "-register-all".
Inductive json : Type :=
| JNull
| JBool (b : bool)
| JInt (z : Z)
| JDec (m e : Z)
| JInfinity (neg : bool)
| JNaN
| JStr (s : string)
| JArr (l : list json)
| JObj (items : list (string * json)).

Definition is_zero (x : pyfloat) : bool :=
  match x with Fin 0 => true | _ => false end.

(** [bool(v)] *)
Definition py_truthy (v : json) : bool :=
  match v with
  | JNull => false
  | JBool b => b
  | JInt z => negb (z =? 0)
  | JDec m e => negb (is_zero (of_decimal m e))
  | JInfinity _ | JNaN => true
  | JStr s => negb (bool_decide (s = ""))
  | JArr l => match l with [] => false | _ => true end
  | JObj items => match items with [] => false | _ => true end
  end.

Fixpoint lookup_item (k : string) (items : list (string * json)) : option json :=
  match items with
  | [] => None
  | (k', v) :: r => if bool_decide (k' = k) then Some v else lookup_item k r
  end.

Definition is_str (k : string) (v : json) : bool :=
  match v with JStr s => bool_decide (s = k) | _ => false end.

(** [k in v] for a string [k]: a key of a dict, an element of a list, a
    substring of a string; any other value is not iterable. *)
Definition py_contains (k : string) (v : json) : outcome bool :=
  match v with
  | JObj items => Ok (bool_decide (is_Some (lookup_item k items)))
  | JArr l => Ok (existsb (is_str k) l)
  | JStr s => Ok (str_contains k s)
  | _ => Raise TypeError
  end.

(** [v[k]] for a string [k] *)
Definition py_getitem (v : json) (k : string) : outcome json :=
  match v with
  | JObj items =>
      match lookup_item k items with
      | Some x => Ok x
      | None => Raise KeyError
      end
  | _ => Raise TypeError
  end.

(** [v[0]]: a dict decoded from JSON has only string keys. *)
Definition py_getitem0 (v : json) : outcome json :=
  match v with
  | JArr (x :: _) => Ok x
  | JArr [] => Raise IndexError
  | JStr (String c _) => Ok (JStr (String c EmptyString))
  | JStr EmptyString => Raise IndexError
  | JObj _ => Raise KeyError
  | _ => Raise TypeError
  end.

(** [v.get(k, default)]: only a dict has the method. *)
Definition py_get (v : json) (k : string) (default : json) : outcome json :=
  match v with
  | JObj items =>
      match lookup_item k items with
      | Some x => Ok x
      | None => Ok default
      end
  | _ => Raise AttributeError
  end.

Fixpoint chars (s : string) : list json :=
  match s with
  | EmptyString => []
  | String c r => JStr (String c EmptyString) :: chars r
  end.

(** What [for x in v] runs over. *)
Definition py_iter (v : json) : outcome (list json) :=
  match v with
  | JArr l => Ok l
  | JObj items => Ok (map (fun kv => JStr (fst kv)) items)
  | JStr s => Ok (chars s)
  | _ => Raise TypeError
  end.

(** [v.strip()], as far as the script uses it: whether anything is left. *)
Definition py_strip_nonempty (v : json) : outcome bool :=
  match v with
  | JStr s => Ok (negb (forall_string isspace s))
  | _ => Raise AttributeError
  end.

(** [float(v)] *)
Definition py_float (v : json) : outcome pyfloat :=
  match v with
  | JStr s => float_of_string s
  | JInt z => float_of_int z
  | JDec m e => Ok (of_decimal m e)
  | JInfinity s => Ok (Inf s)
  | JNaN => Ok NaN
  | JBool b => Ok (Fin (if b then one else 0))
  | JNull | JArr _ | JObj _ => Raise TypeError
  end.

(** Decimal text of an int. *)
Definition str_of_int (z : Z) : string :=
  NilZero.string_of_int (Z.to_int z).

(** *** [repr()] and [str()] *)

Definition backslash : ascii := "092".
Definition single_quote : ascii := "039".
Definition double_quote : ascii := "034".

Definition has_char (c : ascii) (s : string) : bool :=
  negb (forall_string (fun x => negb (Ascii.eqb x c)) s).

Definition hex_digit (d : Z) : ascii :=
  ascii_of_N (Z.to_N (if d <? 10 then 48 + d else 87 + d)).

(** One character inside the quotes of [repr(s)]. *)
Definition repr_char (quote c : ascii) : string :=
  if Ascii.eqb c backslash then String backslash (String backslash "")
  else if Ascii.eqb c quote then String backslash (String c "")
  else if code c =? 9 then String backslash "t"
  else if code c =? 10 then String backslash "n"
  else if code c =? 13 then String backslash "r"
  else if isprintable c then String c ""
  else String backslash
         (String "x" (String (hex_digit (code c / 16))
                        (String (hex_digit (code c mod 16)) ""))).

Fixpoint repr_chars (quote : ascii) (s : string) : string :=
  match s with
  | EmptyString => EmptyString
  | String c r => repr_char quote c +:+ repr_chars quote r
  end.

(** [repr(s)] for a string: double quotes only when [s] has a single quote
    and no double quote. *)
Definition repr_str (s : string) : string :=
  let quote :=
    if has_char single_quote s && negb (has_char double_quote s)
    then double_quote else single_quote in
  String quote (repr_chars quote s +:+ String quote "").

(** The decimal exponent of [a] units, [a > 0]: the [p] with
    [10^p <= a / one < 10^(p+1)]. *)
Definition reaches (a p : Z) : bool :=
  if 0 <=? p then one * 10 ^ p <=? a else one <=? a * 10 ^ (- p).

Definition decimal_exponent (a : Z) : Z :=
  let p0 := (Z.log2 a - 1074) * 30103 / 100000 in
  if reaches a (p0 + 1) then p0 + 1 else if reaches a p0 then p0 else p0 - 1.

(** [m * 10^q] reads back as the float of [a] units. *)
Definition reads_back (a m q : Z) : bool :=
  match of_decimal m q with
  | Fin k => k =? a
  | _ => false
  end.

(** Of the decimals [lo * 10^q <= a / one <= (lo + 1) * 10^q] the lower one
    is chosen: it is nearer to [a] units, or as near and [lo] is even. *)
Definition low_is_nearer (a lo q : Z) : bool :=
  let '(below, above) :=
    if 0 <=? q then (a - lo * 10 ^ q * one, (lo + 1) * 10 ^ q * one - a)
    else (a * 10 ^ (- q) - lo * one, (lo + 1) * one - a * 10 ^ (- q)) in
  match below ?= above with
  | Lt => true
  | Eq => Z.even lo
  | Gt => false
  end.

(** The shortest decimal [m * 10^q] that reads back as the float of [a]
    units, the nearest one when two of that length do: digits are tried
    from [n] on, at most 17 are needed. *)
Fixpoint shortest_decimal (fuel : nat) (n a p : Z) : Z * Z :=
  let q := p - n + 1 in
  let lo := if 0 <=? q then a / (one * 10 ^ q) else a * 10 ^ (- q) / one in
  match fuel with
  | O => (lo, q)
  | S fuel' =>
      let low := reads_back a lo q in
      let high := reads_back a (lo + 1) q in
      if low && (negb high || low_is_nearer a lo q) then (lo, q)
      else if high then (lo + 1, q)
      else shortest_decimal fuel' (n + 1) a p
  end.

Fixpoint strip_zeros (fuel : nat) (m q : Z) : Z * Z :=
  match fuel with
  | O => (m, q)
  | S fuel' =>
      if (m mod 10 =? 0) && negb (m =? 0) then strip_zeros fuel' (m / 10) (q + 1)
      else (m, q)
  end.

Fixpoint zeros (n : nat) : string :=
  match n with
  | O => EmptyString
  | S n' => String "0" (zeros n')
  end.

(** [repr] of a positive finite float of [a] units: positional for a
    decimal point position in -3..16, with exponent otherwise. *)
Definition repr_positive (a : Z) : string :=
  let '(m, q) := shortest_decimal 17 1 a (decimal_exponent a) in
  let '(m, q) := strip_zeros 17 m q in
  let digits := str_of_int m in
  let n := Z.of_nat (String.length digits) in
  let decpt := q + n in
  if (decpt <=? -4) || (16 <? decpt) then
    let e := decpt - 1 in
    let mantissa :=
      match digits with
      | String d EmptyString => digits
      | String d rest => String d (String "." rest)
      | EmptyString => digits
      end in
    let ee := str_of_int (Z.abs e) in
    mantissa +:+ "e" +:+ (if e <? 0 then "-" else "+")
      +:+ (if Z.abs e <? 10 then "0" else "") +:+ ee
  else if decpt <=? 0 then "0." +:+ zeros (Z.to_nat (- decpt)) +:+ digits
  else if n <=? decpt then digits +:+ zeros (Z.to_nat (decpt - n)) +:+ ".0"
  else
    substring 0 (Z.to_nat decpt) digits +:+ "."
      +:+ substring (Z.to_nat decpt) (Z.to_nat (n - decpt)) digits.

(** [repr(x)] for a float. *)
Definition repr_float (x : pyfloat) : string :=
  match x with
  | NaN => "nan"
  | Inf s => if s then "-inf" else "inf"
  | Fin k =>
      if k =? 0 then "0.0"
      else (if k <? 0 then "-" else "") +:+ repr_positive (Z.abs k)
  end.

Fixpoint join (sep : string) (l : list string) : string :=
  match l with
  | [] => EmptyString
  | [x] => x
  | x :: r => x +:+ sep +:+ join sep r
  end.

(** [repr(v)] *)
Fixpoint py_repr (v : json) : string :=
  match v with
  | JNull => "None"
  | JBool b => if b then "True" else "False"
  | JInt z => str_of_int z
  | JDec m e => repr_float (of_decimal m e)
  | JInfinity s => repr_float (Inf s)
  | JNaN => repr_float NaN
  | JStr s => repr_str s
  | JArr l => "[" +:+ join ", " (map py_repr l) +:+ "]"
  | JObj items =>
      "{" +:+ join ", " (map (fun kv => repr_str (fst kv) +:+ ": " +:+ py_repr (snd kv)) items)
        +:+ "}"
  end.

(** [str(v)]: a string is its own text, any other value its [repr]. *)
Definition py_str (v : json) : outcome string :=
  match v with
  | JStr s => Ok s
  | _ => Ok (py_repr v)
  end.

(** A Python number, the argument of [int()] in [round_to_5_or_10]. *)
Inductive pynum : Type :=
| NInt (z : Z)
| NFloat (x : pyfloat).

(** [int(x)] *)
Definition py_int (x : pynum) : outcome Z :=
  match x with
  | NInt z => Ok z
  | NFloat f => int_of_float f
  end.

(* ===================================================================== *)
(** ** HTTP responses, console lines and the trace of a run *)
(* ===================================================================== *)

(** What [resp.json()] can raise that is not a [RequestException]:
    [ValueError] for a body with an integer literal of more than 4300
    digits (the default limit of CPython since 3.11) and [RecursionError]
    for a body nested too deep. *)
Inductive json_refusal : Type :=
| IntegerTooLong
| NestedTooDeep.

Definition refusal_exn (why : json_refusal) : exn :=
  match why with
  | IntegerTooLong => ValueError
  | NestedTooDeep => RecursionError
  end.

(** What a call of [requests] meets: no usable response (connection error,
    timeout), or a response with its status and what [resp.json()] does
    with its body: [Some j] when it returns [j], [None] when the body is
    not JSON, and [Refused] when the body is JSON that the decoder
    refuses. *)
Inductive http_response : Type :=
| NoResponse
| Response (status : Z) (body : option json)
| Refused (status : Z) (why : json_refusal).

(** One storefront variant as [get_shopify_skus] collects it. *)
Record item : Type := Item {
  sku : json;
  inventory_item_id : json;
  variant_id : json;
  current_price : json;
  compare_at_price : json
}.

(** One entry of the POS map. *)
Record pos_entry : Type := PosEntry {
  quantity : Z;
  price : pyfloat
}.

(** The lines the script prints, by the statement that prints them. *)
Inductive message : Type :=
| ShopifyFetchError                       (* line 84 *)
| ShopifyRetrieved (n : nat)              (* line 86 *)
| PosFetching                             (* line 95 *)
| PosLoaded (n : nat)                     (* line 120 *)
| PosFetchError                           (* line 124 *)
| PosParseError                           (* line 127 *)
| StockRejected (sku reason : json)       (* line 182 *)
| StockError (sku : json)                 (* line 188 *)
| HasDiscount (sku : json) (compare current : pyfloat)   (* line 212 *)
| CannotParsePrice (sku current : json)   (* line 228 *)
| AlreadyAtTarget (sku : json) (current : pyfloat)       (* line 234 *)
| PriceUpdated (sku : json) (old : pyfloat) (new : Z) (pos_price : pyfloat)
                                          (* line 255 *)
| PriceError (sku : json)                 (* line 259 *)
| MissingVariable (var : string)          (* line 268 *)
| NoShopifySkus                           (* line 273 *)
| NoPosInventory                          (* line 278 *)
| Comparing (n m : nat)                   (* line 281 *)
| StockSynced (sku : json) (qty : Z)      (* line 296 *)
| NoMatch (sku : json).                   (* line 302 *)

(** What a run does that the outside can see, in order. *)
Inductive event : Type :=
| Print (m : message)
| GetProducts                              (* requests.get, line 59 *)
| GetPos                                   (* requests.get, line 100 *)
| PostStock (inventory_item_id : json) (quantity : Z)   (* line 173 *)
| PutPrice (variant_id : json) (price : Z)              (* line 252 *)
| Sleep.                                   (* time.sleep(0.2) *)

(** A statement of the script: the events it produced, then its value or
    the exception that ended it. *)
Definition M (A : Type) : Type := (list event * outcome A)%type.

Definition ret {A : Type} (a : A) : M A := ([], Ok a).

Definition bind {A B : Type} (m : M A) (f : A -> M B) : M B :=
  match m with
  | (t, Ok a) => let '(t', r) := f a in (t ++ t', r)
  | (t, Raise e) => (t, Raise e)
  end.

Definition emit (e : event) : M unit := ([e], Ok tt).

Definition print (m : message) : M unit := emit (Print m).

(** A pure computation inside a statement. *)
Definition lift {A : Type} (o : outcome A) : M A := ([], o).

(** [try: body except ...: handler]: [handler e] is [None] when no clause
    matches [e]. *)
Definition try_except {A : Type} (body : M A) (handler : exn -> option (M A)) : M A :=
  match body with
  | (t, Raise e) =>
      match handler e with
      | Some h => let '(t', r) := h in (t ++ t', r)
      | None => (t, Raise e)
      end
  | _ => body
  end.

Notation "'let*' x ':=' c 'in' k" := (bind c (fun x => k))
  (at level 10, x name, c at level 100, k at level 200,
   format "'[v' 'let*'  x  :=  c  'in'  '/' k ']'").

(** [resp.raise_for_status()]: an [HTTPError] for a 4xx or 5xx status. *)
Definition raise_for_status (r : http_response) : outcome unit :=
  match r with
  | NoResponse => Raise RequestException
  | Response status _ | Refused status _ =>
      if (400 <=? status) && (status <? 600) then Raise RequestException
      else Ok tt
  end.

(** [resp.json()]: the [JSONDecodeError] of [requests] is a
    [RequestException]; what else the decoder raises is passed on. *)
Definition response_json (r : http_response) : outcome json :=
  match r with
  | Response _ (Some j) => Ok j
  | Response _ None | NoResponse => Raise RequestException
  | Refused _ why => Raise (refusal_exn why)
  end.

(** What the script reads from outside during one run.  The product listing
    is a chain of pages: a page is followed by a next one when its [Link]
    header names a URL with [rel="next"] (lines 73-82), and that URL
    answers with the next page of the chain. *)
Inductive listing : Type :=
| LastPage (resp : http_response)
| MorePages (resp : http_response) (next_page : listing).

Record world : Type := World {
  getenv : string -> option string;       (* os.getenv *)
  products : listing;                     (* the storefront listing *)
  pos : http_response;                    (* the POS bulk export *)
  stock_response : nat -> http_response;  (* answer to the stock update of the i-th variant *)
  price_response : nat -> http_response   (* answer to the price update of the i-th variant *)
}.

(* ===================================================================== *)
(** ** The script *)
(* ===================================================================== *)

(** *** Helper functions (lines 19-47) *)

Definition sanitize_sku (sku : json) : string :=
  match sku with
  | JStr s => filter_string isprintable s
  | _ => ""
  end.

Definition round_to_5_or_10 (price : pynum) : outcome Z :=
  let? price_pounds := py_int price in
  let last_digit := price_pounds mod 10 in
  if (last_digit =? 0) || (last_digit =? 5) then Ok price_pounds
  else
    let remainder := price_pounds mod 10 in
    if remainder <? 5 then Ok (price_pounds - remainder + 5)
    else Ok (price_pounds - remainder + 10).

(** *** [get_shopify_skus] (lines 51-87) *)

(** The body of [for variant in product["variants"]]. *)
Fixpoint variants_loop (variants : list json) (skus : list item) : outcome (list item) :=
  match variants with
  | [] => Ok skus
  | variant :: rest =>
      let? s := py_get variant "sku" JNull in
      let? keep :=
        (if py_truthy s then
           let? i := py_get variant "inventory_item_id" JNull in
           Ok (py_truthy i)
         else Ok false) in
      if keep then
        let? v_sku := py_getitem variant "sku" in
        let? v_iid := py_getitem variant "inventory_item_id" in
        let? v_id := py_getitem variant "id" in
        let? v_price := py_get variant "price" (JStr "0.0") in
        let? v_cmp := py_get variant "compare_at_price" JNull in
        variants_loop rest (skus ++ [Item v_sku v_iid v_id v_price v_cmp])
      else variants_loop rest skus
  end.

(** The body of [for product in products]. *)
Fixpoint products_loop (prods : list json) (skus : list item) : outcome (list item) :=
  match prods with
  | [] => Ok skus
  | product :: rest =>
      let? vs := py_getitem product "variants" in
      let? variants := py_iter vs in
      let? skus' := variants_loop variants skus in
      products_loop rest skus'
  end.

(** Lines 58-61 and 83-85: one page is fetched and its variants are added
    to [skus]; [None] when the function returns [None] at line 85. *)
Definition fetch_page (resp : http_response) (skus : list item) : M (option (list item)) :=
  try_except
    (let* _ := emit GetProducts in
     let* _ := lift (raise_for_status resp) in
     let* j := lift (response_json resp) in
     let* ps := lift (py_get j "products" (JArr [])) in
     let* prods := lift (py_iter ps) in
     let* skus' := lift (products_loop prods skus) in
     ret (Some skus'))
    (fun e =>
       match e with
       | RequestException => Some (let* _ := print ShopifyFetchError in ret None)
       | _ => None
       end).

(** The [while url] loop, one page per turn. *)
Fixpoint pages_loop (l : listing) (skus : list item) : M (option (list item)) :=
  match l with
  | LastPage resp =>
      let* r := fetch_page resp skus in
      match r with
      | None => ret None
      | Some skus' =>
          let* _ := print (ShopifyRetrieved (length skus')) in
          ret (Some skus')
      end
  | MorePages resp next_page =>
      let* r := fetch_page resp skus in
      match r with
      | None => ret None
      | Some skus' => pages_loop next_page skus'
      end
  end.

Definition get_shopify_skus (w : world) : M (option (list item)) :=
  pages_loop (products w) [].

(** *** The [Link] header (lines 73-82) *)

(** [c in chars] for one character. *)
Definition char_in (chars : string) (c : ascii) : bool :=
  existsb (Ascii.eqb c) (list_ascii_of_string chars).

(** [s.split(sep)] for a separator of one character; the result is never
    empty. *)
Fixpoint split_char (sep : ascii) (s : string) : list string :=
  match s with
  | EmptyString => [EmptyString]
  | String c r =>
      if Ascii.eqb c sep then EmptyString :: split_char sep r
      else
        match split_char sep r with
        | p :: ps => String c p :: ps
        | [] => [String c EmptyString]
        end
  end.

Fixpoint lstrip_chars (chars : string) (l : list ascii) : list ascii :=
  match l with
  | c :: r => if char_in chars c then lstrip_chars chars r else l
  | [] => []
  end.

(** [s.strip(chars)] *)
Definition strip_chars (chars s : string) : string :=
  string_of_list_ascii
    (rev (lstrip_chars chars (rev (lstrip_chars chars (list_ascii_of_string s))))).

(** The text [rel="next"]. *)
Definition rel_next : string :=
  "rel=" +:+ String "034" ("next" +:+ String "034" "").

(** The value of [url] after lines 73-82, for the [Link] header of the
    response, [None] when it has none.  [split] gives at least one part, so
    [[0]] at line 78 cannot fail. *)
Definition next_url (link_header : option string) : option string :=
  match link_header with
  | Some h =>
      if negb (bool_decide (h = "")) && str_contains rel_next h then
        let parts := split_char "," h in
        let next_link_info := List.filter (str_contains rel_next) parts in
        match next_link_info with
        | p :: _ => Some (strip_chars "<> " (hd "" (split_char ";" p)))
        | [] => None
        end
      else None
  | None => None
  end.

(** [while url]: the loop goes on with a URL that is not empty. *)
Definition goes_on (url : option string) : bool :=
  match url with
  | Some u => negb (bool_decide (u = ""))
  | None => false
  end.

(** *** [get_all_pos_inventory] (lines 90-128) *)

(** [item and "ID" in item and "Qua" in item and "Price" in item] *)
Definition pos_guard (it : json) : outcome bool :=
  if py_truthy it then
    let? a := py_contains "ID" it in
    if a then
      let? b := py_contains "Qua" it in
      if b then py_contains "Price" it else Ok false
    else Ok false
  else Ok false.

(** The body of [for item in pos_data]. *)
Fixpoint pos_loop (items : list json) (pos_inventory_map : gmap string pos_entry)
  : outcome (gmap string pos_entry) :=
  match items with
  | [] => Ok pos_inventory_map
  | it :: rest =>
      let? g := pos_guard it in
      if g then
        let? id := py_getitem it "ID" in
        let? sku := py_str id in
        let? qua := py_getitem it "Qua" in
        let? qf := py_float qua in
        let? quantity := int_of_float qf in
        let? pr := py_get it "Price" (JInt 0) in
        let? price := py_float pr in
        pos_loop rest (<[sku := PosEntry quantity price]> pos_inventory_map)
      else pos_loop rest pos_inventory_map
  end.

Definition get_all_pos_inventory (w : world) : M (option (gmap string pos_entry)) :=
  let* _ := print PosFetching in
  try_except
    (let* _ := emit GetPos in
     let* _ := lift (raise_for_status (pos w)) in
     let* pos_data := lift (response_json (pos w)) in
     let* items := lift (py_iter pos_data) in
     let* pos_inventory_map := lift (pos_loop items ∅) in
     let* _ := print (PosLoaded (size pos_inventory_map)) in
     ret (Some pos_inventory_map))
    (fun e =>
       match e with
       | RequestException => Some (let* _ := print PosFetchError in ret None)
       | ValueError | TypeError => Some (let* _ := print PosParseError in ret None)
       | _ => None
       end).

(** *** [update_shopify_stock] (lines 131-189) *)

Definition update_shopify_stock (inventory_item_id sku : json) (quantity : Z)
    (resp : http_response) : M bool :=
  try_except
    (let* _ := emit (PostStock inventory_item_id quantity) in
     let* _ := lift (raise_for_status resp) in
     let* response_data := lift (response_json resp) in
     let* data := lift (py_get response_data "data" (JObj [])) in
     let* result := lift (py_get data "inventorySetOnHandQuantities" (JObj [])) in
     let* user_errors := lift (py_get result "userErrors" (JArr [])) in
     if py_truthy user_errors then
       let* first := lift (py_getitem0 user_errors) in
       let* error_message := lift (py_getitem first "message") in
       let* _ := print (StockRejected sku error_message) in
       ret false
     else ret true)
    (fun e =>
       match e with
       | RequestException => Some (let* _ := print (StockError sku) in ret false)
       | _ => None
       end).

(** *** [update_shopify_price] (lines 192-260) *)

(** Lines 200-216, the discount check: [true] when the function has printed
    the discount line and returns [False] at line 213. *)
Definition has_discount (sku current_shopify_price compare_at_price : json) : M bool :=
  let* stripped :=
    lift (if py_truthy compare_at_price then py_strip_nonempty compare_at_price
          else Ok false) in
  if stripped then
    try_except
      (let* compare_price_float := lift (py_float compare_at_price) in
       let* current_price_float := lift (py_float current_shopify_price) in
       if fgt compare_price_float current_price_float then
         let* _ := print (HasDiscount sku compare_price_float current_price_float) in
         ret true
       else ret false)
      (fun e =>
         match e with
         | ValueError | TypeError => Some (ret false)
         | _ => None
         end)
  else ret false.

(** Lines 218-222: [round_to_5_or_10(round(pos_price * 1.15, 2))]. *)
Definition target_price (pos_price : pyfloat) : outcome Z :=
  round_to_5_or_10 (NFloat (py_round2 (fmul pos_price c1_15))).

(** Line 233: [abs(current - target) <= tolerance or current > target]. *)
Definition at_or_above_target (current_price_float : pyfloat) (target : Z) : outcome bool :=
  let? t := float_of_int target in
  Ok (fle (fabs (fsub current_price_float t)) c0_01
      || fgt_int current_price_float target).

(** Lines 218-235, the price target calculation: the parsed current price
    and the target price to send, or [None] when the function returns
    [False] at line 229 or 235. *)
Definition price_to_set (sku : json) (pos_price : pyfloat) (current_shopify_price : json)
  : M (option (pyfloat * Z)) :=
  let* target := lift (target_price pos_price) in
  let* parsed :=
    try_except
      (let* current_price_float := lift (py_float current_shopify_price) in
       ret (Some current_price_float))
      (fun e =>
         match e with
         | ValueError | TypeError =>
             Some (let* _ := print (CannotParsePrice sku current_shopify_price) in
                   ret None)
         | _ => None
         end) in
  match parsed with
  | None => ret None
  | Some current_price_float =>
      let* skip := lift (at_or_above_target current_price_float target) in
      if skip then
        let* _ := print (AlreadyAtTarget sku current_price_float) in
        ret None
      else ret (Some (current_price_float, target))
  end.

Definition update_shopify_price (variant_id sku : json) (pos_price : pyfloat)
    (current_shopify_price compare_at_price : json) (resp : http_response) : M bool :=
  let* discounted := has_discount sku current_shopify_price compare_at_price in
  if discounted then ret false
  else
    let* todo := price_to_set sku pos_price current_shopify_price in
    match todo with
    | None => ret false
    | Some (current_price_float, target) =>
        try_except
          (let* _ := emit (PutPrice variant_id target) in
           let* _ := lift (raise_for_status resp) in
           let* _ := print (PriceUpdated sku current_price_float target pos_price) in
           ret true)
          (fun e =>
             match e with
             | RequestException => Some (let* _ := print (PriceError sku) in ret false)
             | _ => None
             end)
    end.

(** *** [main] (lines 264-304) *)

Definition required_vars : list string :=
  ["SHOPIFY_STORE"; "SHOPIFY_TOKEN"; "LOCATION_ID"; "POS_BASE_URL"; "POS_PASSWORD"].

(** [not os.getenv(var)] *)
Definition unset (w : world) (var : string) : bool :=
  match getenv w var with
  | None => true
  | Some v => bool_decide (v = "")
  end.

(** The body of [for item in shopify_skus]; [i] numbers the variants. *)
Fixpoint sync_loop (w : world) (i : nat) (shopify_skus : list item)
    (pos_inventory : gmap string pos_entry) : M unit :=
  match shopify_skus with
  | [] => ret tt
  | it :: rest =>
      let original_sku := sku it in
      let clean_sku := sanitize_sku original_sku in
      let* _ :=
        match pos_inventory !! clean_sku with
        | Some pos_data =>
            let* synced :=
              update_shopify_stock (inventory_item_id it) original_sku
                (quantity pos_data) (stock_response w i) in
            let* _ :=
              (if synced then print (StockSynced original_sku (quantity pos_data))
               else ret tt) in
            let* _ := emit Sleep in
            let* _ :=
              update_shopify_price (variant_id it) original_sku (price pos_data)
                (current_price it) (compare_at_price it) (price_response w i) in
            ret tt
        | None => print (NoMatch original_sku)
        end in
      let* _ := emit Sleep in
      sync_loop w (S i) rest pos_inventory
  end.

(** [not shopify_skus], [not pos_inventory] *)
Definition no_skus (r : option (list item)) : bool :=
  match r with
  | None | Some [] => true
  | Some (_ :: _) => false
  end.

Definition no_inventory (r : option (gmap string pos_entry)) : bool :=
  match r with
  | None => true
  | Some m => bool_decide (size m = 0%nat)
  end.

Definition main (w : world) : M unit :=
  match filter (unset w) required_vars with
  | var :: _ => print (MissingVariable var)
  | [] =>
      let* shopify_skus := get_shopify_skus w in
      if no_skus shopify_skus then print NoShopifySkus
      else
        let* pos_inventory := get_all_pos_inventory w in
        if no_inventory pos_inventory then print NoPosInventory
        else
          let skus := default [] shopify_skus in
          let inventory := default ∅ pos_inventory in
          let* _ := print (Comparing (length skus) (size inventory)) in
          sync_loop w 0 skus inventory
  end.

(* ===================================================================== *)
(** ** Vocabulary of the properties *)
(* ===================================================================== *)

(** [k] units is a binary64 number: at most 53 significant bits. *)
Definition representable (k : Z) : Prop :=
  Z.abs k mod 2 ^ Z.max (Z.log2 (Z.abs k) - 52) 0 = 0.

(** The largest finite float, in units. *)
Definition max_float : Z := (2 ^ 53 - 1) * 2 ^ 2045.

(** The units of a finite float. *)
Definition units (x : pyfloat) : Z :=
  match x with Fin k => k | _ => 0 end.

(** A price [P >= 0]: an int, or a finite float, that is not negative. *)
Definition is_price (P : pynum) : Prop :=
  match P with
  | NInt z => 0 <= z
  | NFloat (Fin k) => 0 <= k
  | NFloat _ => False
  end.

(** [t] is [P] truncated to whole currency units. *)
Definition whole_units (P : pynum) (t : Z) : Prop :=
  match P with
  | NInt z => t = z
  | NFloat (Fin k) => t * one <= k < (t + 1) * one
  | NFloat _ => False
  end.


Definition is_listing_event (e : event) : bool :=
  match e with
  | GetProducts | Print ShopifyFetchError | Print (ShopifyRetrieved _) => true
  | _ => false
  end.

Definition is_sync_request (e : event) : bool :=
  match e with PostStock _ _ | PutPrice _ _ => true | _ => false end.

(** *** Inputs used in the examples *)

Definition ok_json (j : json) : http_response := Response 200 (Some j).

Definition env_set (var : string) : option string := Some "set".

Definition pos_record (id qua price : json) : json :=
  JObj [("ID", id); ("Qua", qua); ("Price", price)].

Definition variant (sku iid vid price compare : json) : json :=
  JObj [("sku", sku); ("inventory_item_id", iid); ("id", vid);
        ("price", price); ("compare_at_price", compare)].

Definition one_page (variants : list json) : listing :=
  LastPage (ok_json (JObj [("products", JArr [JObj [("variants", JArr variants)]])])).

Definition stock_accepted : http_response :=
  ok_json (JObj [("data", JObj [("inventorySetOnHandQuantities",
                                  JObj [("userErrors", JArr [])])])]).

Definition stock_null_data : http_response :=
  ok_json (JObj [("data", JNull)]).

Definition a_tab_b : string :=
  String "A"%char (String "009"%char (String "B"%char EmptyString)).

Definition two_variants : listing :=
  one_page [variant (JStr "A") (JInt 11) (JInt 21) (JStr "100.00") JNull;
            variant (JStr "B") (JInt 12) (JInt 22) (JStr "100.00") JNull].

Definition two_records : http_response :=
  ok_json (JArr [pos_record (JStr "A") (JStr "3") (JStr "100.00");
                 pos_record (JStr "B") (JStr "4") (JStr "100.00")]).

Definition world_with (stock : http_response) : world :=
  World env_set two_variants two_records (fun _ => stock) (fun _ => ok_json JNull).

Definition pos_world (body : json) : world :=
  World env_set two_variants (ok_json body) (fun _ => stock_accepted) (fun _ => ok_json JNull).

Definition one_bad_quantity : json :=
  JArr [pos_record (JStr "A") (JStr "3") (JStr "100.00");
        pos_record (JStr "B") (JStr "abc") (JStr "100.00")].

(** The POS map that [get_all_pos_inventory] builds, when it builds one. *)
Definition built_map (w : world) : gmap string pos_entry :=
  match snd (get_all_pos_inventory w) with
  | Ok (Some m) => m
  | _ => ∅
  end.

Definition variant_a : item :=
  Item (JStr "A") (JInt 11) (JInt 21) (JStr "100.00") JNull.

Definition map_a : gmap string pos_entry :=
  {[ "A" := PosEntry 3 (Fin (100 * one)) ]}.

Definition empty_store : world :=
  World env_set (LastPage (ok_json (JObj [("products", JArr [])]))) two_records
        (fun _ => stock_accepted) (fun _ => ok_json JNull).

(** A storefront variant and a POS record with the same identifier,
    "A<TAB>B". *)
Definition tab_world : world :=
  World env_set
    (one_page [variant (JStr a_tab_b) (JInt 11) (JInt 21) (JStr "100.00") JNull])
    (ok_json (JArr [pos_record (JStr a_tab_b) (JStr "4") (JStr "100.00")]))
    (fun _ => stock_accepted) (fun _ => ok_json JNull).

(** *** Vocabulary of the further properties *)

(** The request of a call of [requests] fails: no response, an error
    status, or (where the body is decoded) a body that is not JSON. *)
Definition request_failed (r : http_response) : Prop :=
  raise_for_status r = Raise RequestException \/
  response_json r = Raise RequestException.


(** The number of pages of a listing. *)
Fixpoint pages (l : listing) : nat :=
  match l with
  | LastPage _ => 1%nat
  | MorePages _ next_page => S (pages next_page)
  end.

(** The test of line 64 holds of a collected variant. *)
Definition kept (it : item) : Prop :=
  py_truthy (sku it) = true /\ py_truthy (inventory_item_id it) = true.

(** The exceptions of a response that has not the expected shape. *)
Definition malformed (e : exn) : Prop :=
  e = AttributeError \/ e = KeyError \/ e = TypeError.

(** What [resp.json()] raises for a body that the decoder refuses. *)
Definition refused (e : exn) : Prop :=
  e = ValueError \/ e = RecursionError.

Definition variant_without_id : listing :=
  one_page [JObj [("sku", JStr "A"); ("inventory_item_id", JInt 11)]].

(** The record [it] passes the check of line 107 and lines 108-110 read the
    key [key] and the entry [e] from it. *)
Definition record_of (it : json) (key : string) (e : pos_entry) : Prop :=
  pos_guard it = Ok true /\
  exists id qua qf pr,
    py_getitem it "ID" = Ok id /\ py_str id = Ok key /\
    py_getitem it "Qua" = Ok qua /\ py_float qua = Ok qf /\
    int_of_float qf = Ok (quantity e) /\
    py_get it "Price" (JInt 0) = Ok pr /\ py_float pr = Ok (price e).

Definition infinite_quantity : json :=
  JArr [pos_record (JStr "A") (JStr "inf") (JStr "nan")].

Definition same_id_twice : list json :=
  [pos_record (JStr "A") (JStr "3") (JStr "100.00");
   pos_record (JStr "A") (JStr "4") (JStr "100.00")].

(** A status that [raise_for_status] accepts. *)
Definition status_ok (status : Z) : Prop :=
  (400 <=? status) && (status <? 600) = false.

(** The documented answer to the stock mutation, with its [userErrors]. *)
Definition stock_reply (user_errors : json) : json :=
  JObj [("data", JObj [("inventorySetOnHandQuantities",
                         JObj [("userErrors", user_errors)])])].

(** An exception of a JSON value used as another type than it has. *)
Definition shape_error (e : exn) : Prop :=
  e = AttributeError \/ e = KeyError \/ e = IndexError \/ e = TypeError.

Definition is_post_stock (e : event) : bool :=
  match e with PostStock _ _ => true | _ => false end.

Definition is_put_price (e : event) : bool :=
  match e with PutPrice _ _ => true | _ => false end.

Definition is_sleep (e : event) : bool :=
  match e with Sleep => true | _ => false end.

Definition is_no_match (e : event) : bool :=
  match e with Print (NoMatch _) => true | _ => false end.

(** How many events of a trace satisfy [p]. *)
Definition count (p : event -> bool) (t : list event) : nat :=
  length (List.filter p t).

(** The variant finds an entry in the POS map (lines 290-293). *)
Definition matched (m : gmap string pos_entry) (it : item) : bool :=
  bool_decide (is_Some (m !! sanitize_sku (sku it))).

(** What the two updates of a matched variant can print or send. *)
Definition is_update_event (e : event) : bool :=
  match e with
  | PostStock _ _ | PutPrice _ _
  | Print (StockRejected _ _) | Print (StockError _) | Print (HasDiscount _ _ _)
  | Print (CannotParsePrice _ _) | Print (AlreadyAtTarget _ _)
  | Print (PriceUpdated _ _ _ _) | Print (PriceError _) => true
  | _ => false
  end.

(** The part of a run an event belongs to: 1 the storefront listing, 2 the
    POS export, 3 the loop over the variants; 0 the configuration check. *)
Definition phase (e : event) : nat :=
  match e with
  | Print (MissingVariable _) => 0
  | GetProducts | Print ShopifyFetchError | Print (ShopifyRetrieved _)
  | Print NoShopifySkus => 1
  | GetPos | Print PosFetching | Print (PosLoaded _) | Print PosFetchError
  | Print PosParseError | Print NoPosInventory => 2
  | _ => 3
  end.

Definition in_phase (n : nat) (e : event) : bool := Nat.eqb (phase e) n.

Definition variant_discounted : item :=
  Item (JStr "A") (JInt 11) (JInt 21) (JStr "100.00") (JStr "120.00").

Definition variant_z : item :=
  Item (JStr "Z") (JInt 13) (JInt 23) (JStr "100.00") JNull.

Definition variant_numeric_reference : item :=
  Item (JStr "A") (JInt 11) (JInt 21) (JStr "100.00") (JInt 150).

(** No character of [s] is [sep]. *)
Definition no_char (sep : ascii) (s : string) : bool :=
  forall_string (fun c => negb (Ascii.eqb c sep)) s.

(** One link of a header: the URL between angle brackets, then the
    parameter [rel="next"]. *)
Definition next_link (pad url : string) : string :=
  pad +:+ "<" +:+ url +:+ ">; " +:+ rel_next.

(* ===================================================================== *)
(** ** The float model against the machine's binary64 arithmetic *)
(* ===================================================================== *)

#[local] Set Warnings "-inexact-float".

Example binary64_literals :
  of_prim 1.15 = c1_15 /\ of_prim 0.01 = c0_01 /\
  Ok (of_prim 114.99) = float_of_string "114.99".
Proof. split; [|split]; vm_compute; reflexivity. Qed.

Example binary64_products :
  of_prim (100 * 1.15) = fmul (of_decimal 100 0) c1_15 /\
  of_prim (11.3 * 1.15) = fmul (of_decimal 113 (-1)) c1_15.
Proof. split; vm_compute; reflexivity. Qed.

(** [115 - 114.99] is 0.010000000000005116 in binary64, above [0.01]. *)
Example binary64_difference :
  of_prim (114.99 - 115) = fsub (of_decimal 11499 (-2)) (of_decimal 115 0) /\
  fle (fabs (of_prim (114.99 - 115))) c0_01 = false.
Proof. split; vm_compute; reflexivity. Qed.

(** [round(x, 2)] on values Python documents: [round(2.675, 2)] is 2.67,
    halves go to the even digit, and 100 * 1.15 = 114.99999999999999 rounds
    to 115.0. *)
Example round2_values :
  py_round2 (of_decimal 2675 (-3)) = of_decimal 267 (-2) /\
  py_round2 (of_decimal 125 (-3)) = of_decimal 12 (-2) /\
  py_round2 (fmul (of_decimal 100 0) c1_15) = of_decimal 115 0.
Proof. split; [|split]; vm_compute; reflexivity. Qed.

(** The examples of the rounding policy: 101, 104 -> 105; 106, 109 -> 110;
    110 and 115 unchanged. *)
Example round_to_5_or_10_values :
  map (fun z => round_to_5_or_10 (NInt z)) [101; 104; 106; 109; 110; 115] =
  [Ok 105; Ok 105; Ok 110; Ok 110; Ok 110; Ok 115].
Proof. reflexivity. Qed.

(** [repr] on values Python documents: the shortest text that reads back,
    with an exponent from 1e16 on and below 1e-4; the quotes of a string;
    a list and a dict. *)
Example repr_values :
  map (fun v => py_str v)
    [JDec 1 (-1); JDec 125 (-1); JDec 1 16; JDec 1 (-5); JDec 35995 (-3);
     JInt (-7); JArr [JInt 1; JStr "x"; JNull; JBool true; JObj [("a", JArr [])]];
     JArr [JStr a_tab_b]; JStr a_tab_b] =
  [Ok "0.1"; Ok "12.5"; Ok "1e+16"; Ok "1e-05"; Ok "35.995";
   Ok "-7"; Ok "[1, 'x', None, True, {'a': []}]";
   Ok (String "[" (String "'" (String "A" (String backslash
        (String "t" (String "B" (String "'" (String "]" "")))))))); Ok a_tab_b].
Proof. vm_compute. reflexivity. Qed.

(* ===================================================================== *)
(** ** Rounding to binary64 *)
(* ===================================================================== *)

Lemma rne_eq a b :
  rne a b =
  if 2 * (a mod b) <? b then a / b
  else if b <? 2 * (a mod b) then a / b + 1
  else if Z.even (a / b) then a / b else a / b + 1.
Proof.
  unfold rne, Z.div, Z.modulo. now destruct (Z.div_eucl a b).
Qed.

Lemma pow2_pos n : 0 <= n -> 0 < 2 ^ n.
Proof. intros. apply Z.pow_pos_nonneg; lia. Qed.

Lemma log2_quot_eq a d : 0 <= a -> 0 < d -> log2_quot a d = Z.log2 (a / d).
Proof.
  intros Ha Hd. unfold log2_quot.
  destruct (Z.ltb_spec a d) as [Hlt | Hge].
  - now rewrite Z.div_small by lia.
  - assert (Hl : Z.log2 d <= Z.log2 a) by (apply Z.log2_le_mono; lia).
    destruct (Z.log2_spec a ltac:(lia)) as [Ha1 Ha2].
    destruct (Z.log2_spec d Hd) as [Hd1 Hd2].
    set (la := Z.log2 a) in *. set (ld := Z.log2 d) in *.
    assert (Hld : 0 <= ld) by apply Z.log2_nonneg.
    pose proof (pow2_pos (la - ld) ltac:(lia)) as Hk.
    assert (Ela : 2 ^ Z.succ la = 2 ^ (la - ld) * 2 * 2 ^ ld).
    { replace (Z.succ la) with ((la - ld) + 1 + ld) by lia.
      now rewrite !Z.pow_add_r by lia. }
    symmetry. destruct (Z.leb_spec (d * 2 ^ (la - ld)) a) as [Hle | Hgt].
    + apply Z.log2_unique; [lia|]. split.
      * apply Z.div_le_lower_bound; lia.
      * apply Z.div_lt_upper_bound; [lia|].
        rewrite Z.pow_succ_r by lia. nia.
    + assert (Hk1 : 1 <= la - ld).
      { destruct (Z.eq_dec la ld) as [E | N]; [|lia].
        rewrite E, Z.sub_diag in Hgt. change (2 ^ 0) with 1 in Hgt. lia. }
      assert (Ek : 2 ^ (la - ld) = 2 * 2 ^ (la - ld - 1)).
      { replace (la - ld) with (1 + (la - ld - 1)) at 1 by lia.
        now rewrite Z.pow_add_r by lia. }
      assert (Ea : 2 ^ la = 2 ^ (la - ld - 1) * (2 * 2 ^ ld)).
      { replace la with ((la - ld - 1) + (1 + ld)) at 1 by lia.
        now rewrite !Z.pow_add_r by lia. }
      pose proof (pow2_pos (la - ld - 1) ltac:(lia)) as Hk'.
      apply Z.log2_unique; [lia|]. split.
      * apply Z.div_le_lower_bound; [lia|]. rewrite Z.pow_succ_r in Hd2 by lia. nia.
      * replace (Z.succ (la - ld - 1)) with (la - ld) by lia.
        apply Z.div_lt_upper_bound; lia.
Qed.

Lemma round_b64_eq n d :
  0 < d ->
  round_b64 n d =
  Z.sgn n * (rne (Z.abs n) (d * 2 ^ Z.max (Z.log2 (Z.abs n / d) - 52) 0)
             * 2 ^ Z.max (Z.log2 (Z.abs n / d) - 52) 0).
Proof.
  intros Hd. unfold round_b64. now rewrite log2_quot_eq by lia.
Qed.

Lemma rne_bounds a b : 0 <= a -> 0 < b -> a / b <= rne a b <= a / b + 1.
Proof.
  intros Ha Hb. rewrite rne_eq.
  destruct (2 * (a mod b) <? b); [lia|].
  destruct (b <? 2 * (a mod b)); [lia|].
  destruct (Z.even (a / b)); lia.
Qed.

Lemma rne_exact a b : 0 < b -> a mod b = 0 -> rne a b = a / b.
Proof.
  intros Hb Hr. rewrite rne_eq, Hr.
  destruct (2 * 0 <? b) eqn:E; [reflexivity | apply Z.ltb_ge in E; lia].
Qed.

Lemma rne_down a b : 0 < b -> 2 * (a mod b) < b -> rne a b = a / b.
Proof.
  intros Hb Hr. rewrite rne_eq.
  destruct (2 * (a mod b) <? b) eqn:E; [reflexivity | apply Z.ltb_ge in E; lia].
Qed.

Lemma rne_scale c a b : 0 < c -> 0 < b -> rne (c * a) (c * b) = rne a b.
Proof.
  intros Hc Hb. rewrite !rne_eq.
  rewrite Z.div_mul_cancel_l by lia.
  rewrite Z.mul_mod_distr_l by lia.
  replace (2 * (c * (a mod b)) <? c * b) with (2 * (a mod b) <? b)
    by (destruct (Z.ltb_spec (2 * (a mod b)) b), (Z.ltb_spec (2 * (c * (a mod b))) (c * b)); nia).
  replace (c * b <? 2 * (c * (a mod b))) with (b <? 2 * (a mod b))
    by (destruct (Z.ltb_spec b (2 * (a mod b))), (Z.ltb_spec (c * b) (2 * (c * (a mod b)))); nia).
  reflexivity.
Qed.

Lemma representable_opp k : representable k -> representable (- k).
Proof. unfold representable. now rewrite Z.abs_opp. Qed.

Lemma representable_small m : 0 <= m <= 2 ^ 53 -> representable m.
Proof.
  intros [Hlo Hhi]. unfold representable. rewrite Z.abs_eq by lia.
  destruct (Z.eq_dec m (2 ^ 53)) as [-> | Hne]; [reflexivity|].
  assert (Z.log2 m <= 52).
  { destruct (Z.eq_dec m 0) as [-> | H0]; [cbn; lia|].
    assert (Z.log2 m < 53); [apply Z.log2_lt_pow2|]; lia. }
  rewrite Z.max_r by lia. apply Z.mod_1_r.
Qed.

Lemma representable_mul_pow2 m sh :
  0 <= sh -> 2 ^ 52 <= m <= 2 ^ 53 -> representable (m * 2 ^ sh).
Proof.
  intros Hsh [Hlo Hhi]. unfold representable.
  pose proof (pow2_pos sh Hsh) as Hp.
  rewrite Z.abs_eq by nia.
  destruct (Z.eq_dec m (2 ^ 53)) as [-> | Hne].
  - rewrite <- Z.pow_add_r by lia. rewrite Z.log2_pow2 by lia.
    rewrite Z.max_l by lia.
    replace (2 ^ (53 + sh)) with (2 ^ 52 * 2 ^ (53 + sh - 52))
      by (rewrite <- Z.pow_add_r by lia; f_equal; lia).
    apply Z.mod_mul. apply Z.pow_nonzero; lia.
  - assert (Hl : Z.log2 (m * 2 ^ sh) = 52 + sh).
    { apply Z.log2_unique; [lia|].
      replace (Z.succ (52 + sh)) with (53 + sh) by lia.
      rewrite !Z.pow_add_r by lia. split.
      - apply Z.mul_le_mono_nonneg_r; lia.
      - apply Z.mul_lt_mono_pos_r; lia. }
    rewrite Hl, Z.max_l by lia. replace (52 + sh - 52) with sh by lia.
    apply Z.mod_mul. lia.
Qed.

(** The shape of a rounded number: the part kept and the power of two it
    is scaled by. *)
Lemma round_b64_shape n d :
  0 < d ->
  exists m sh, 0 <= sh /\ 0 <= m <= 2 ^ 53 /\ (0 < sh -> 2 ^ 52 <= m) /\
    sh = Z.max (Z.log2 (Z.abs n / d) - 52) 0 /\
    m = rne (Z.abs n) (d * 2 ^ sh) /\
    round_b64 n d = Z.sgn n * (m * 2 ^ sh).
Proof.
  intros Hd. rewrite round_b64_eq by assumption.
  set (a := Z.abs n). set (x := a / d).
  set (sh := Z.max (Z.log2 x - 52) 0).
  exists (rne a (d * 2 ^ sh)), sh.
  assert (Ha : 0 <= a) by apply Z.abs_nonneg.
  assert (Hx : 0 <= x) by (apply Z.div_pos; lia).
  assert (Hsh : 0 <= sh) by lia.
  pose proof (pow2_pos sh Hsh) as Hp.
  assert (Hq : a / (d * 2 ^ sh) = x / 2 ^ sh)
    by (unfold x; rewrite Z.div_div by lia; reflexivity).
  pose proof (rne_bounds a (d * 2 ^ sh) Ha ltac:(nia)) as Hb. rewrite Hq in Hb.
  assert (Hq0 : 0 <= x / 2 ^ sh) by (apply Z.div_pos; lia).
  repeat split; try lia.
  - destruct (Z_le_gt_dec (Z.log2 x) 52) as [Hs | Hs].
    + assert (sh = 0) as E by lia. rewrite E in *. rewrite Z.div_1_r in Hb.
      assert (x < 2 ^ 53); [|lia].
      destruct (Z.eq_dec x 0) as [-> | H0]; [reflexivity|].
      apply Z.log2_lt_pow2; lia.
    + assert (0 < x)
        by (destruct (Z.eq_dec x 0) as [E0|]; [rewrite E0 in Hs; cbn in Hs|]; lia).
      destruct (Z.log2_spec x ltac:(lia)) as [_ H2].
      replace (Z.succ (Z.log2 x)) with (53 + sh) in H2 by lia.
      rewrite Z.pow_add_r in H2 by lia.
      assert (x / 2 ^ sh < 2 ^ 53) by (apply Z.div_lt_upper_bound; lia).
      lia.
  - intros Hpos.
    assert (0 < x)
      by (destruct (Z.eq_dec x 0) as [E0|]; [subst sh; rewrite E0 in Hpos; cbn in Hpos|]; lia).
    destruct (Z.log2_spec x ltac:(lia)) as [H1 _].
    replace (Z.log2 x) with (52 + sh) in H1 by lia.
    rewrite Z.pow_add_r in H1 by lia.
    assert (2 ^ 52 <= x / 2 ^ sh) by (apply Z.div_le_lower_bound; lia).
    lia.
Qed.

Lemma round_b64_representable n d : 0 < d -> representable (round_b64 n d).
Proof.
  intros Hd.
  destruct (round_b64_shape n d Hd) as (m & sh & Hsh & Hm & Hlo & _ & _ & ->).
  assert (Hr : representable (m * 2 ^ sh)).
  { destruct (Z.eq_dec sh 0) as [-> | Hne].
    - rewrite Z.mul_1_r. now apply representable_small.
    - apply representable_mul_pow2; lia. }
  destruct (Z.sgn_spec n) as [[_ ->] | [[_ ->] | [_ ->]]].
  - now rewrite Z.mul_1_l.
  - reflexivity.
  - replace (-1 * _) with (- (m * 2 ^ sh)) by lia.
    now apply representable_opp.
Qed.

(** A binary64 number rounds to itself. *)
Lemma round_b64_id k : representable k -> round_b64 k 1 = k.
Proof.
  unfold representable. intros H. rewrite round_b64_eq by lia.
  rewrite Z.div_1_r, Z.mul_1_l.
  set (sh := Z.max _ 0) in *.
  assert (Hp : 0 < 2 ^ sh) by (apply pow2_pos; lia).
  rewrite rne_exact by lia.
  assert (E : Z.abs k / 2 ^ sh * 2 ^ sh = Z.abs k)
    by (rewrite Z.mul_comm; symmetry; apply Z_div_exact_full_2; lia).
  rewrite E. lia.
Qed.

Lemma round_b64_scale c n d :
  0 < c -> 0 < d -> round_b64 (c * n) (c * d) = round_b64 n d.
Proof.
  intros Hc Hd. rewrite !round_b64_eq by (try apply Z.mul_pos_pos; lia).
  rewrite Z.abs_mul, (Z.abs_eq c) by lia.
  rewrite Z.div_mul_cancel_l by lia.
  rewrite <- Z.mul_assoc, rne_scale by (try apply Z.mul_pos_pos; try apply pow2_pos; lia).
  rewrite Z.sgn_mul, (Z.sgn_pos c) by lia. now rewrite Z.mul_1_l.
Qed.

Lemma round_b64_abs n d :
  0 < d ->
  exists m sh, 0 <= sh /\ 0 <= m <= 2 ^ 53 /\
    sh = Z.max (Z.log2 (Z.abs n / d) - 52) 0 /\
    m = rne (Z.abs n) (d * 2 ^ sh) /\
    Z.abs (round_b64 n d) <= m * 2 ^ sh.
Proof.
  intros Hd.
  destruct (round_b64_shape n d Hd) as (m & sh & Hsh & Hm & _ & E1 & E2 & ->).
  exists m, sh. repeat split; try lia; try assumption.
Qed.

(** Rounding does not cross a power of two. *)
Lemma round_b64_le_pow2 n d j :
  0 < d -> 0 <= j -> Z.abs n < 2 ^ j * d -> Z.abs (round_b64 n d) <= 2 ^ j.
Proof.
  intros Hd Hj Hn.
  destruct (round_b64_abs n d Hd) as (m & sh & Hsh & Hm & Esh & Em & Hle).
  set (a := Z.abs n) in *. set (x := a / d) in *.
  assert (Ha : 0 <= a) by apply Z.abs_nonneg.
  assert (Hx : 0 <= x) by (apply Z.div_pos; lia).
  assert (Hxj : x < 2 ^ j) by (apply Z.div_lt_upper_bound; lia).
  pose proof (pow2_pos sh Hsh) as Hp.
  etransitivity; [exact Hle|].
  destruct (Z.eq_dec sh 0) as [E0 | Hne].
  - rewrite E0 in *. rewrite Z.mul_1_r in *.
    pose proof (rne_bounds a d Ha Hd). fold x in H. lia.
  - assert (0 < x)
      by (destruct (Z.eq_dec x 0) as [E0|]; [rewrite E0 in Esh; cbn in Esh|]; lia).
    assert (Z.log2 x < j) by (apply Z.log2_lt_pow2; lia).
    assert (53 + sh <= j) by lia.
    replace j with ((j - (53 + sh)) + (53 + sh)) by lia.
    rewrite Z.pow_add_r, (Z.pow_add_r 2 53 sh) by lia.
    pose proof (pow2_pos (j - (53 + sh)) ltac:(lia)).
    nia.
Qed.

Lemma representable_le_max k :
  representable k -> Z.abs k < 2 ^ 2098 -> Z.abs k <= max_float.
Proof.
  unfold representable, max_float. intros Hr Hk.
  set (a := Z.abs k) in *.
  assert (Ha : 0 <= a) by apply Z.abs_nonneg.
  destruct (Z_lt_ge_dec a (2 ^ 2097)) as [Hs | Hs].
  - change (2 ^ 2097) with (2 ^ 52 * 2 ^ 2045) in Hs.
    pose proof (pow2_pos 2045 ltac:(lia)). nia.
  - assert (Hl : Z.log2 a = 2097)
      by (apply Z.log2_unique; [lia | split; [exact (Z.ge_le _ _ Hs) | exact Hk]]).
    rewrite Hl in Hr. change (Z.max (2097 - 52) 0) with 2045 in Hr.
    pose proof (pow2_pos 2045 ltac:(lia)) as Hp.
    apply Z_div_exact_full_2 in Hr; [|lia].
    change (2 ^ 2098) with (2 ^ 53 * 2 ^ 2045) in Hk.
    set (P := 2 ^ 2045) in *. set (q := a / P) in *.
    assert (q < 2 ^ 53) by nia. nia.
Qed.

(** Less than half a step above the largest float still rounds to it. *)
Lemma round_b64_no_overflow n :
  Z.abs n < max_float + 2 ^ 2044 -> Z.abs (round_b64 n 1) <= max_float.
Proof.
  unfold max_float. intros Hn.
  destruct (Z_lt_ge_dec (Z.abs n) (2 ^ 2097)) as [Hs | Hs].
  - pose proof (round_b64_le_pow2 n 1 2097 ltac:(lia) ltac:(lia) ltac:(lia)) as H.
    change (2 ^ 2097) with (2 ^ 52 * 2 ^ 2045) in H.
    pose proof (pow2_pos 2045 ltac:(lia)). nia.
  - destruct (round_b64_abs n 1 ltac:(lia)) as (m & sh & Hsh & Hm & Esh & Em & Hle).
    rewrite Z.div_1_r in Esh. rewrite Z.mul_1_l in Em.
    set (a := Z.abs n) in *.
    assert (Hk : a < 2 ^ 2098).
    { change (2 ^ 2098) with (2 ^ 53 * 2 ^ 2045).
      change (2 ^ 2044) with (2 ^ 2045 / 2) in Hn.
      pose proof (pow2_pos 2045 ltac:(lia)).
      assert (2 ^ 2045 / 2 <= 2 ^ 2045) by (apply Z.div_le_upper_bound; lia).
      nia. }
    assert (Hl : Z.log2 a = 2097)
      by (apply Z.log2_unique; [lia | split; [exact (Z.ge_le _ _ Hs) | exact Hk]]).
    rewrite Hl in Esh. change (Z.max (2097 - 52) 0) with 2045 in Esh. subst sh.
    etransitivity; [exact Hle|].
    apply Z.mul_le_mono_nonneg_r; [apply Z.lt_le_incl, pow2_pos; lia|].
    pose proof (pow2_pos 2045 ltac:(lia)) as Hp.
    pose proof (Z.div_mod a (2 ^ 2045) ltac:(lia)) as Hdm.
    pose proof (Z.mod_pos_bound a (2 ^ 2045) Hp) as Hmb.
    pose proof (rne_bounds a (2 ^ 2045) ltac:(lia) Hp) as Hb.
    change (2 ^ 2044 ) with (2 ^ 2045 / 2) in Hn.
    assert (E2 : 2 * (2 ^ 2045 / 2) = 2 ^ 2045) by reflexivity.
    set (P := 2 ^ 2045) in *. set (q := a / P) in *. set (r := a mod P) in *.
    set (h := P / 2) in *.
    assert (Hq : q <= 2 ^ 53 - 1) by nia.
    destruct (Z.eq_dec q (2 ^ 53 - 1)) as [Eq | Hne]; [|lia].
    assert (2 * r < P) by nia.
    rewrite Em. unfold q. rewrite rne_down by (fold r; lia). fold q. lia.
Qed.

(** What [fin_round] returns when it is finite. *)
Lemma fin_round_Fin n d k :
  0 < d -> fin_round n d = Fin k ->
  k = round_b64 n d /\ representable k /\ Z.abs k < 2 ^ 2098.
Proof.
  intros Hd. unfold fin_round.
  destruct (Z.leb_spec (2 ^ 2098) (Z.abs (round_b64 n d))); [discriminate|].
  intros [= <-]. repeat split; [now apply round_b64_representable | assumption].
Qed.

Lemma fin_round_id k :
  representable k -> Z.abs k < 2 ^ 2098 -> fin_round k 1 = Fin k.
Proof.
  intros Hr Hk. unfold fin_round. rewrite round_b64_id by assumption.
  destruct (Z.leb_spec (2 ^ 2098) (Z.abs k)); [lia | reflexivity].
Qed.

Lemma fin_round_bounded n d j :
  0 < d -> 0 <= j < 2098 -> Z.abs n < 2 ^ j * d ->
  exists k, fin_round n d = Fin k /\ Z.abs k <= 2 ^ j.
Proof.
  intros Hd Hj Hn. unfold fin_round.
  pose proof (round_b64_le_pow2 n d j Hd ltac:(lia) Hn) as H.
  assert (2 ^ j < 2 ^ 2098) by (apply Z.pow_lt_mono_r; lia).
  destruct (Z.leb_spec (2 ^ 2098) (Z.abs (round_b64 n d))); [lia|].
  eexists; split; [reflexivity | assumption].
Qed.

Lemma one_pos : 0 < one.
Proof. unfold one. apply pow2_pos. lia. Qed.

Lemma fmul_Fin x y m :
  fmul x y = Fin m -> representable m /\ Z.abs m < 2 ^ 2098.
Proof.
  destruct x as [a | s |], y as [b | s' |]; cbn [fmul]; try discriminate.
  - intros H. now apply fin_round_Fin in H; [|apply one_pos].
  - destruct (a =? 0); discriminate.
  - destruct (b =? 0); discriminate.
Qed.

Lemma of_decimal_Fin m e k :
  of_decimal m e = Fin k -> representable k /\ Z.abs k < 2 ^ 2098.
Proof.
  unfold of_decimal, of_ratio. destruct (0 <=? e) eqn:E; intros H.
  - now apply fin_round_Fin in H.
  - apply Z.leb_gt in E.
    apply fin_round_Fin in H; [tauto|]. apply Z.pow_pos_nonneg; lia.
Qed.

Lemma float_of_int_Fin z x :
  float_of_int z = Ok x ->
  exists k, x = Fin k /\ fin_round (z * one) 1 = Fin k /\
            representable k /\ Z.abs k < 2 ^ 2098.
Proof.
  unfold float_of_int. destruct (fin_round (z * one) 1) as [k | |] eqn:E; try discriminate.
  intros [= <-]. exists k. apply fin_round_Fin in E; [|lia]. tauto.
Qed.

Lemma float_of_string_Fin s k :
  float_of_string s = Ok (Fin k) -> representable k /\ Z.abs k < 2 ^ 2098.
Proof.
  unfold float_of_string.
  destruct (to_ascii _) as [l1|]; [|discriminate].
  destruct (drop_underscores 0 l1) as [l2|]; [|discriminate].
  destruct (take_sign (c_strip l2)) as [neg body].
  destruct (parse_decimal body) as [[m e]|].
  - intros [= H]. now apply of_decimal_Fin in H.
  - repeat (destruct (_ || _) || destruct (is_word _ _)); discriminate.
Qed.

Lemma representable_one : representable one.
Proof. unfold representable. vm_compute. reflexivity. Qed.

(** Every finite float that [float()] returns is a binary64 number. *)
Lemma py_float_Fin v k :
  py_float v = Ok (Fin k) -> representable k /\ Z.abs k < 2 ^ 2098.
Proof.
  destruct v; cbn [py_float]; try discriminate.
  - destruct b; intros [= <-].
    + split; [apply representable_one | vm_compute; reflexivity].
    + split; [reflexivity | vm_compute; reflexivity].
  - intros H. apply float_of_int_Fin in H as (k' & [= <-] & _ & H). exact H.
  - intros [= H]. now apply of_decimal_Fin in H.
  - apply float_of_string_Fin.
Qed.

(** [round(x, 2)] of a finite float is finite. *)
Lemma py_round2_Fin k :
  representable k -> Z.abs k < 2 ^ 2098 ->
  exists k', py_round2 (Fin k) = Fin k' /\ Z.abs k' <= max_float.
Proof.
  intros Hr Hk. cbn [py_round2].
  pose proof one_pos as H1.
  destruct (Z_lt_ge_dec (Z.abs k) (2 ^ 53 * one)) as [Hs | Hs].
  - pose proof (rne_bounds (100 * Z.abs k) one ltac:(lia) H1) as Hb.
    pose proof (Z.mul_div_le (100 * Z.abs k) one H1) as Hd.
    assert (Hdn : 0 <= 100 * Z.abs k / one) by (apply Z.div_pos; lia).
    destruct (fin_round_bounded (Z.sgn k * rne (100 * Z.abs k) one * one) 100 (54 + 1074))
      as (k' & -> & Hk'); [lia | lia | | ].
    + rewrite Z.pow_add_r by lia. fold one.
      set (r := rne _ _) in *. set (q := _ / one) in *.
      assert (0 <= r * one <= 100 * Z.abs k + one) by nia.
      rewrite <- Z.mul_assoc. set (y := r * one) in *.
      assert (Z.abs (Z.sgn k * y) <= y) by lia.
      change (2 ^ 54) with 18014398509481984. lia.
    + exists k'. split; [reflexivity|]. etransitivity; [exact Hk'|].
      unfold max_float. vm_compute. discriminate.
  - exists k. split; [|now apply representable_le_max].
    assert (Hdiv : Z.abs k mod one = 0).
    { unfold representable in Hr.
      assert (0 < Z.abs k) by lia.
      assert (Hl : 53 + 1074 <= Z.log2 (Z.abs k)).
      { apply Z.log2_le_pow2; [lia|]. rewrite Z.pow_add_r by lia. exact (Z.ge_le _ _ Hs). }
      rewrite Z.max_l in Hr by lia.
      apply Z_div_exact_full_2 in Hr; [|apply Z.pow_nonzero; lia].
      rewrite Hr.
      replace (Z.log2 (Z.abs k) - 52) with (1074 + (Z.log2 (Z.abs k) - 52 - 1074)) at 1 by lia.
      rewrite Z.pow_add_r by lia. fold one.
      rewrite <- Z.mul_assoc, Z.mul_comm. apply Z.mod_mul. lia. }
    assert (Hdiv' : (100 * Z.abs k) mod one = 0)
      by (rewrite <- Z.mul_mod_idemp_r, Hdiv, Z.mul_0_r by lia; now apply Z.mod_0_l; lia).
    assert (E : Z.sgn k * rne (100 * Z.abs k) one * one = 100 * k).
    { rewrite rne_exact by assumption.
      pose proof (Z_div_exact_full_2 (100 * Z.abs k) one ltac:(lia) Hdiv') as E.
      rewrite <- Z.mul_assoc, (Z.mul_comm _ one), <- E. lia. }
    rewrite E. unfold fin_round.
    replace (round_b64 (100 * k) 100) with k
      by (change 100 with (100 * 1) at 2; rewrite round_b64_scale, round_b64_id by (assumption || lia); reflexivity).
    destruct (Z.leb_spec (2 ^ 2098) (Z.abs k)); [lia | reflexivity].
Qed.

(* ===================================================================== *)
(** ** The rounding policy *)
(* ===================================================================== *)

(** The integer part of [round_to_5_or_10]: the least multiple of 5 that is
    not below the truncated price. *)
Lemma round_to_5_or_10_int P t :
  py_int P = Ok t ->
  exists r, round_to_5_or_10 P = Ok r /\ r mod 5 = 0 /\ t <= r < t + 5 /\
    (t mod 10 = 0 \/ t mod 10 = 5 -> r = t) /\
    (0 < t mod 10 < 5 -> r = t - t mod 10 + 5) /\
    (5 < t mod 10 -> r = t - t mod 10 + 10 /\ r mod 10 = 0).
Proof.
  intros Ht. unfold round_to_5_or_10. rewrite Ht. cbn [obind].
  pose proof (Z.mod_pos_bound t 10 ltac:(lia)) as Hm.
  pose proof (Z.div_mod t 10 ltac:(lia)) as Hd.
  destruct (Z.eqb_spec (t mod 10) 0) as [E0 | N0]; cbn [orb].
  { exists t. repeat split; try lia.
    rewrite Hd, E0, Z.add_0_r. replace (10 * (t / 10)) with (2 * (t / 10) * 5) by lia.
    apply Z.mod_mul. lia. }
  destruct (Z.eqb_spec (t mod 10) 5) as [E5 | N5].
  { exists t. repeat split; try lia.
    rewrite Hd, E5. replace (10 * (t / 10) + 5) with ((2 * (t / 10) + 1) * 5) by lia.
    apply Z.mod_mul. lia. }
  destruct (Z.ltb_spec (t mod 10) 5) as [Hlt | Hge].
  - exists (t - t mod 10 + 5). repeat split; try lia.
    replace (t - t mod 10 + 5) with ((2 * (t / 10) + 1) * 5) by lia.
    apply Z.mod_mul. lia.
  - exists (t - t mod 10 + 10). repeat split; try lia.
    + replace (t - t mod 10 + 10) with ((2 * (t / 10) + 2) * 5) by lia.
      apply Z.mod_mul. lia.
    + replace (t - t mod 10 + 10) with ((t / 10 + 1) * 10) by lia.
      apply Z.mod_mul. lia.
Qed.

(** C9.  For every price P >= 0 (an int, or a finite float), [round_to_5_or_10]
    returns a result [r] (it never fails): with [t] the price truncated to
    whole units, [r = t] when the last digit of [t] is 0 or 5, [r] is the
    next multiple of 5 when [t mod 10] is below 5, and the next multiple of
    10 otherwise; so [r mod 5 = 0] and [r >= t].  For every int [z], of
    either sign, the result is a multiple of 5 that is not below [z]. *)
Theorem round_to_5_or_10_rounds_up P :
  is_price P ->
  (exists t r,
     whole_units P t /\ round_to_5_or_10 P = Ok r /\
     (t mod 10 = 0 \/ t mod 10 = 5 -> r = t) /\
     (0 < t mod 10 < 5 -> r = t - t mod 10 + 5 /\ r mod 5 = 0 /\ t < r < t + 5) /\
     (5 < t mod 10 -> r = t - t mod 10 + 10 /\ r mod 10 = 0 /\ t < r < t + 5) /\
     r mod 5 = 0 /\ t <= r) /\
  (forall z : Z, exists r, round_to_5_or_10 (NInt z) = Ok r /\ r mod 5 = 0 /\ z <= r).
Proof.
  intros HP. split.
  - assert (exists t, py_int P = Ok t /\ whole_units P t) as (t & Ht & Hw).
    { destruct P as [z | [k | |]]; cbn in HP |- *; try contradiction.
      - now exists z.
      - exists (Z.quot k one). split; [reflexivity|].
        pose proof one_pos. rewrite Z.quot_div_nonneg by lia.
        pose proof (Z.div_mod k one ltac:(lia)).
        pose proof (Z.mod_pos_bound k one ltac:(lia)). lia. }
    destruct (round_to_5_or_10_int P t Ht) as (r & Hr & H5 & Hb & Ha & Hlo & Hhi).
    pose proof (Z.mod_pos_bound t 10 ltac:(lia)) as Hm.
    exists t, r.
    split; [exact Hw|]. split; [exact Hr|]. split; [exact Ha|].
    split; [intros H; pose proof (Hlo H); repeat split; (assumption || lia)|].
    split; [intros H; destruct (Hhi H); repeat split; (assumption || lia)|].
    split; [assumption | lia].
  - intros z. destruct (round_to_5_or_10_int (NInt z) z eq_refl) as (r & Hr & H5 & Hb & _).
    exists r. repeat split; [assumption | assumption | lia].
Qed.

Lemma round_to_5_or_10_rounds_up_witness :
  is_price (NFloat (of_decimal 10650 (-2))) /\
  exists t r,
    whole_units (NFloat (of_decimal 10650 (-2))) t /\
    round_to_5_or_10 (NFloat (of_decimal 10650 (-2))) = Ok r /\
    r mod 5 = 0 /\ t <= r.
Proof.
  assert (HP : is_price (NFloat (of_decimal 10650 (-2)))) by (vm_compute; discriminate).
  split; [exact HP|].
  destruct (round_to_5_or_10_rounds_up _ HP) as [(t & r & Hw & Hr & _ & _ & _ & H5 & Hle) _].
  exists t, r.
  exact (conj Hw (conj Hr (conj H5 Hle))).
Defined.

(* ===================================================================== *)
(** ** The price target calculation *)
(* ===================================================================== *)

Lemma quot_one_bound k : Z.abs (Z.quot k one) * one <= Z.abs k.
Proof.
  pose proof one_pos.
  rewrite <- (Z.abs_eq one) at 1 by lia.
  rewrite <- Z.quot_abs by lia.
  rewrite (Z.abs_eq one), Z.quot_div_nonneg by lia.
  rewrite Z.mul_comm. apply Z.mul_div_le. lia.
Qed.

(** When the marked-up price is finite the target is computed, and it
    converts back to a float. *)
Lemma target_price_ok pos_price m :
  fmul pos_price c1_15 = Fin m ->
  exists target t,
    target_price pos_price = Ok target /\ fin_round (target * one) 1 = Fin t.
Proof.
  intros Hm. unfold target_price. rewrite Hm.
  destruct (fmul_Fin _ _ _ Hm) as [Hr Hb].
  destruct (py_round2_Fin m Hr Hb) as (k' & -> & Hk').
  destruct (round_to_5_or_10_int (NFloat (Fin k')) (Z.quot k' one) eq_refl)
    as (r & -> & _ & Hrange & _).
  exists r. unfold fin_round.
  pose proof (quot_one_bound k') as Hq.
  pose proof one_pos as H1.
  assert (H4 : 4 * one < 2 ^ 2044) by (vm_compute; reflexivity).
  assert (Hlt : 2 ^ 2098 > max_float) by (vm_compute; reflexivity).
  pose proof (round_b64_no_overflow (r * one)) as Hno.
  rewrite Z.abs_mul, (Z.abs_eq one) in Hno by lia.
  set (M := max_float) in *. set (h := 2 ^ 2044) in *. set (top := 2 ^ 2098) in *.
  set (t := Z.quot k' one) in *.
  clearbody M h top t.
  assert (Z.abs r <= Z.abs t + 4) by lia.
  assert (Z.abs r * one < M + h).
  { apply Z.le_lt_trans with ((Z.abs t + 4) * one); [|lia].
    apply Z.mul_le_mono_nonneg_r; lia. }
  specialize (Hno ltac:(assumption)).
  destruct (Z.leb_spec top (Z.abs (round_b64 (r * one) 1))); [lia|].
  eexists. split; reflexivity.
Qed.

Lemma fin_round_0 : fin_round 0 1 = Fin 0.
Proof. vm_compute. reflexivity. Qed.

Lemma fsub_diag k : fsub (Fin k) (Fin k) = Fin 0.
Proof. cbn [fsub]. rewrite Z.sub_diag. apply fin_round_0. Qed.

Lemma zero_within_tolerance : fle (fabs (Fin 0)) c0_01 = true.
Proof. vm_compute. reflexivity. Qed.

(** The steps of lines 218-235, one by one. *)
Lemma price_to_set_eq sku pos_price current :
  price_to_set sku pos_price current =
  match target_price pos_price with
  | Raise e => ([], Raise e)
  | Ok target =>
      match py_float current with
      | Raise ValueError | Raise TypeError =>
          ([Print (CannotParsePrice sku current)], Ok None)
      | Raise e => ([], Raise e)
      | Ok c =>
          match float_of_int target with
          | Raise e => ([], Raise e)
          | Ok t =>
              if fle (fabs (fsub c t)) c0_01 || fgt_int c target
              then ([Print (AlreadyAtTarget sku c)], Ok None)
              else ([], Ok (Some (c, target)))
          end
      end
  end.
Proof.
  unfold price_to_set, at_or_above_target.
  destruct (target_price pos_price) as [target | e]; [|reflexivity].
  cbn [lift bind app].
  destruct (py_float current) as [c | []]; try reflexivity.
  cbn [lift bind try_except ret app].
  destruct (float_of_int target) as [t | e]; [|reflexivity].
  cbn [lift bind ret obind app].
  destruct (_ || _); reflexivity.
Qed.


Lemma tolerance_value : c0_01 = Fin (units c0_01) /\ 0 < units c0_01 < 2 ^ 1068.
Proof. split; [vm_compute; reflexivity | split; vm_compute; reflexivity]. Qed.

(** Close to an integer target below 2^53 the subtraction is exact. *)

(** C4.  If the calculation hands a target to the price update, then run
    again on the same base price, with a current price that reads as that
    target, it skips. *)
Theorem price_target_idempotent sku pos_price X tr cur target second :
  price_to_set sku pos_price X = (tr, Ok (Some (cur, target))) ->
  py_float second = float_of_int target ->
  exists f,
    py_float second = Ok f /\
    price_to_set sku pos_price second = ([Print (AlreadyAtTarget sku f)], Ok None).
Proof.
  intros H1 H2. rewrite price_to_set_eq in H1.
  destruct (target_price pos_price) as [target' | e] eqn:Ht; [|discriminate].
  destruct (py_float X) as [c | []]; try discriminate.
  destruct (float_of_int target') as [t | e] eqn:Hf; [|discriminate].
  destruct (_ || _); [discriminate|].
  injection H1 as _ _ <-.
  destruct (float_of_int_Fin _ _ Hf) as (k & -> & _).
  rewrite Hf in H2. exists (Fin k). split; [exact H2|].
  rewrite price_to_set_eq, Ht, H2, Hf, fsub_diag, zero_within_tolerance.
  reflexivity.
Qed.

Lemma price_target_idempotent_witness :
  let pos_price := of_decimal 100 0 in
  price_to_set JNull pos_price (JStr "100.00") = ([], Ok (Some (Fin (100 * one), 115))) /\
  py_float (JStr "115.00") = float_of_int 115 /\
  exists f,
    py_float (JStr "115.00") = Ok f /\
    price_to_set JNull pos_price (JStr "115.00") = ([Print (AlreadyAtTarget JNull f)], Ok None).
Proof.
  cbv zeta.
  assert (H1 : price_to_set JNull (of_decimal 100 0) (JStr "100.00") =
               ([], Ok (Some (Fin (100 * one), 115)))) by (vm_compute; reflexivity).
  assert (H2 : py_float (JStr "115.00") = float_of_int 115) by (vm_compute; reflexivity).
  exact (conj H1 (conj H2 (price_target_idempotent _ _ _ _ _ _ _ H1 H2))).
Defined.

(* ===================================================================== *)
(** ** The discount check *)
(* ===================================================================== *)

Lemma float_of_string_raises s e : float_of_string s = Raise e -> e = ValueError.
Proof.
  unfold float_of_string.
  destruct (to_ascii _) as [l1|]; [|now intros [= <-]].
  destruct (drop_underscores 0 l1) as [l2|]; [|now intros [= <-]].
  destruct (take_sign (c_strip l2)) as [neg body].
  destruct (parse_decimal body) as [[m e']|]; [discriminate|].
  destruct (_ || _); [discriminate|].
  destruct (is_word _ _); [discriminate|]. now intros [= <-].
Qed.


(** Lines 204-216 for a reference price that is a string. *)
Lemma has_discount_text sku current s :
  has_discount sku current (JStr s) =
  if forall_string isspace s then ([], Ok false)
  else
    match py_float (JStr s) with
    | Raise _ => ([], Ok false)
    | Ok r =>
        match py_float current with
        | Ok c => if fgt r c then ([Print (HasDiscount sku r c)], Ok true)
                  else ([], Ok false)
        | Raise ValueError | Raise TypeError => ([], Ok false)
        | Raise e => ([], Raise e)
        end
    end.
Proof.
  unfold has_discount. cbn [py_truthy py_strip_nonempty].
  destruct s as [| a s'].
  - reflexivity.
  - cbn [bool_decide decide_rel negb]. 
    replace (negb (bool_decide (String a s' = ""))) with true
      by (symmetry; apply negb_true_iff, bool_decide_eq_false; discriminate).
    cbn [lift bind app].
    destruct (forall_string isspace (String a s')); cbn [negb]; [reflexivity|].
    destruct (py_float (JStr (String a s'))) as [r | e] eqn:Hr.
    + cbn [lift bind try_except app].
      destruct (py_float current) as [c | []]; try reflexivity.
      cbn [lift bind try_except app]. destruct (fgt r c); reflexivity.
    + apply float_of_string_raises in Hr as ->. reflexivity.
Qed.





(* ===================================================================== *)
(** ** The keys of the POS map and the lookup of a storefront SKU *)
(* ===================================================================== *)

Lemma filter_printable s :
  forall_string isprintable s = true -> filter_string isprintable s = s.
Proof.
  induction s as [| c s IH]; cbn [forall_string filter_string]; [reflexivity|].
  intros H. apply andb_true_iff in H as [-> H]. now rewrite IH.
Qed.

Lemma sync_loop_not_found w i it rest (pos_inventory : gmap string pos_entry) :
  pos_inventory !! sanitize_sku (sku it) = None ->
  exists t r,
    sync_loop w i (it :: rest) pos_inventory = (Print (NoMatch (sku it)) :: Sleep :: t, r).
Proof.
  intros H. cbn [sync_loop]. rewrite H. cbn [print emit bind app].
  destruct (sync_loop w (S i) rest pos_inventory) as [t r]. eauto.
Qed.

(* ===================================================================== *)
(** ** Records and responses that the script does not survive *)
(* ===================================================================== *)

(** C6: the code at a failing input.  The second record has every required
    field, but its quantity is not a number: [float("abc")] raises
    [ValueError], the clause of line 126 catches it and the whole snapshot
    is [None].  The first record is well formed: alone it is kept. *)
Lemma malformed_quantity_aborts_snapshot :
  get_all_pos_inventory (pos_world one_bad_quantity) =
    ([Print PosFetching; GetPos; Print PosParseError], Ok None) /\
  pos_loop [pos_record (JStr "A") (JStr "3") (JStr "100.00")] ∅ =
    Ok {[ "A" := PosEntry 3 (of_decimal 10000 (-2)) ]}.
Proof. split; vm_compute; reflexivity. Qed.

(** C7: the code at a failing input.  The stock update of the first variant
    is answered with [{"data": null}]: [.get] on [None] raises
    [AttributeError], which line 187 does not catch; [main] has no handler,
    so the run ends there and the second variant is never processed. *)
Lemma stock_response_null_data_aborts_run :
  update_shopify_stock (JInt 11) (JStr "A") 3 stock_null_data =
    ([PostStock (JInt 11) 3], Raise AttributeError) /\
  main (world_with stock_null_data) =
    ([GetProducts; Print (ShopifyRetrieved 2); Print PosFetching; GetPos;
      Print (PosLoaded 2); Print (Comparing 2 2); PostStock (JInt 11) 3],
     Raise AttributeError).
Proof. split; vm_compute; reflexivity. Qed.

(** When the stock update returns, with either value, the price update of
    the variant is run next, on the price stored in the POS map. *)
Lemma sync_loop_stock_returned w i it rest (m : gmap string pos_entry) pos_data t b :
  m !! sanitize_sku (sku it) = Some pos_data ->
  update_shopify_stock (inventory_item_id it) (sku it) (quantity pos_data)
    (stock_response w i) = (t, Ok b) ->
  exists tr r,
    sync_loop w i (it :: rest) m =
      (t ++ (if b then [Print (StockSynced (sku it) (quantity pos_data))] else [])
         ++ Sleep
         :: fst (update_shopify_price (variant_id it) (sku it) (price pos_data)
                   (current_price it) (compare_at_price it) (price_response w i))
         ++ tr, r).
Proof.
  intros Hm Hs. cbn [sync_loop]. rewrite Hm, Hs. cbn [bind].
  destruct (update_shopify_price _ _ _ _ _ _) as [tp [x | e]];
    destruct b; cbn [print emit ret bind app fst];
    try destruct (sync_loop w (S i) rest m) as [tl rl];
    eexists; eexists; rewrite <- ?app_assoc; cbn [app];
    rewrite <- ?app_assoc; cbn [app]; try reflexivity.
  all: try (rewrite ?app_nil_r; reflexivity).
Qed.

(** When the stock update raises, the loop ends with that exception. *)
Lemma sync_loop_stock_raised w i it rest (m : gmap string pos_entry) pos_data t e :
  m !! sanitize_sku (sku it) = Some pos_data ->
  update_shopify_stock (inventory_item_id it) (sku it) (quantity pos_data)
    (stock_response w i) = (t, Raise e) ->
  sync_loop w i (it :: rest) m = (t, Raise e).
Proof. intros Hm Hs. cbn [sync_loop]. rewrite Hm, Hs. reflexivity. Qed.

(** C5: the code at a failing input.  Whenever the stock update of a matched
    variant returns, True or False, the price update of that variant runs
    next; but when the stock update raises (the response [{"data": null}]
    of C7), the loop ends after the stock request: the price update of the
    variant is never attempted. *)
Lemma stock_failure_prevents_price_sync :
  (forall w i it rest (m : gmap string pos_entry) pos_data t b,
     m !! sanitize_sku (sku it) = Some pos_data ->
     update_shopify_stock (inventory_item_id it) (sku it) (quantity pos_data)
       (stock_response w i) = (t, Ok b) ->
     exists tr r,
       sync_loop w i (it :: rest) m =
         (t ++ (if b then [Print (StockSynced (sku it) (quantity pos_data))] else [])
            ++ Sleep
            :: fst (update_shopify_price (variant_id it) (sku it) (price pos_data)
                      (current_price it) (compare_at_price it) (price_response w i))
            ++ tr, r)) /\
  sync_loop (world_with stock_null_data) 0 [variant_a] map_a =
    ([PostStock (JInt 11) 3], Raise AttributeError).
Proof.
  split; [intros; eapply sync_loop_stock_returned; eassumption|].
  vm_compute. reflexivity.
Qed.

(* ===================================================================== *)
(** ** Empty snapshots *)
(* ===================================================================== *)

Lemma fetch_page_trace resp skus :
  forallb is_listing_event (fst (fetch_page resp skus)) = true.
Proof.
  unfold fetch_page. cbn [bind emit lift app].
  destruct (raise_for_status resp) as [[] | e1]; cbn [bind app];
    [|destruct e1; reflexivity].
  destruct (response_json resp) as [j | e2]; cbn [bind app];
    [|destruct e2; reflexivity].
  destruct (py_get j "products" (JArr [])) as [ps | e3]; cbn [bind app];
    [|destruct e3; reflexivity].
  destruct (py_iter ps) as [prods | e4]; cbn [bind app];
    [|destruct e4; reflexivity].
  destruct (products_loop prods skus) as [skus' | e5]; cbn [bind app];
    [|destruct e5; reflexivity].
  reflexivity.
Qed.

Lemma pages_loop_trace l : forall skus,
  forallb is_listing_event (fst (pages_loop l skus)) = true.
Proof.
  induction l as [resp | resp next IH]; intros skus; cbn [pages_loop];
    pose proof (fetch_page_trace resp skus) as Hf;
    destruct (fetch_page resp skus) as [t [[skus' |] | e]];
    cbn [bind ret print emit fst] in *.
  - rewrite forallb_app, Hf. reflexivity.
  - now rewrite app_nil_r.
  - exact Hf.
  - specialize (IH skus'). destruct (pages_loop next skus') as [t' r'].
    cbn [fst] in *. now rewrite forallb_app, Hf, IH.
  - now rewrite app_nil_r.
  - exact Hf.
Qed.

Lemma get_all_pos_inventory_trace w :
  forallb (fun e => negb (is_sync_request e)) (fst (get_all_pos_inventory w)) = true.
Proof.
  unfold get_all_pos_inventory. cbn [bind print emit lift app].
  destruct (raise_for_status (pos w)) as [[] | e1]; cbn [bind app];
    [|destruct e1; reflexivity].
  destruct (response_json (pos w)) as [pos_data | e2]; cbn [bind app];
    [|destruct e2; reflexivity].
  destruct (py_iter pos_data) as [items | e3]; cbn [bind app];
    [|destruct e3; reflexivity].
  destruct (pos_loop items ∅) as [m' | e4]; cbn [bind app];
    [|destruct e4; reflexivity].
  reflexivity.
Qed.

Lemma listing_event_not_sync e :
  is_listing_event e = true -> negb (is_sync_request e) = true.
Proof. destruct e as [[] | | | | |]; cbn; congruence. Qed.

(** C10.  With the configuration present: when [get_shopify_skus] returns
    an empty list, [main] does exactly what it does when it returns [None]
    (it prints the same line and returns), and the POS export is never
    requested; when the storefront snapshot is not empty and
    [get_all_pos_inventory] returns an empty map, [main] does exactly what it
    does when it returns [None], and no stock or price update is sent. *)
Theorem empty_snapshot_aborts_run w :
  filter (unset w) required_vars = [] ->
  (forall t r,
     get_shopify_skus w = (t, Ok r) -> r = None \/ r = Some [] ->
     main w = (t ++ [Print NoShopifySkus], Ok tt) /\ ~ In GetPos (fst (main w))) /\
  (forall t1 skus t2 r,
     get_shopify_skus w = (t1, Ok (Some skus)) -> skus <> [] ->
     get_all_pos_inventory w = (t2, Ok r) -> r = None \/ r = Some ∅ ->
     main w = (t1 ++ t2 ++ [Print NoPosInventory], Ok tt) /\
     forallb (fun e => negb (is_sync_request e)) (fst (main w)) = true).
Proof.
  intros Hcfg. unfold main. rewrite Hcfg. split.
  - intros t r Hs Hr.
    pose proof (pages_loop_trace (products w) []) as Ht.
    fold (get_shopify_skus w) in Ht. rewrite Hs in *. cbn [fst] in Ht.
    assert (E : no_skus r = true) by (destruct Hr as [-> | ->]; reflexivity).
    cbn [bind]. rewrite E. cbn [print emit fst]. split; [reflexivity|].
    intros Hin. apply in_app_or in Hin as [Hin | [Hin | []]]; [|discriminate].
    rewrite forallb_forall in Ht. specialize (Ht _ Hin). discriminate.
  - intros t1 skus t2 r Hs Hne Hp Hr.
    pose proof (pages_loop_trace (products w) []) as Ht1.
    fold (get_shopify_skus w) in Ht1.
    pose proof (get_all_pos_inventory_trace w) as Ht2.
    rewrite Hs, Hp in *. cbn [fst] in Ht1, Ht2.
    assert (E1 : no_skus (Some skus) = false) by (destruct skus; [contradiction | reflexivity]).
    assert (E2 : no_inventory r = true) by (destruct Hr as [-> | ->]; reflexivity).
    cbn [bind]. rewrite E1. cbn [bind]. rewrite E2. cbn [print emit fst].
    split; [reflexivity|].
    rewrite !forallb_app, Ht2. cbn [forallb is_sync_request negb andb].
    rewrite andb_true_r. rewrite forallb_forall in *.
    intros e He. apply listing_event_not_sync, Ht1, He.
Qed.

Lemma empty_snapshot_aborts_run_witness :
  filter (unset empty_store) required_vars = [] /\
  get_shopify_skus empty_store = ([GetProducts; Print (ShopifyRetrieved 0)], Ok (Some [])) /\
  main empty_store =
    ([GetProducts; Print (ShopifyRetrieved 0)] ++ [Print NoShopifySkus], Ok tt).
Proof.
  assert (H1 : filter (unset empty_store) required_vars = []) by reflexivity.
  assert (H2 : get_shopify_skus empty_store =
               ([GetProducts; Print (ShopifyRetrieved 0)], Ok (Some [])))
    by reflexivity.
  split; [exact H1|]. split; [exact H2|].
  exact (proj1 (proj1 (empty_snapshot_aborts_run empty_store H1) _ _ H2 (or_intror eq_refl))).
Defined.


(* ===================================================================== *)
(** ** Further properties: the helper functions *)
(* ===================================================================== *)

Lemma filter_string_all p s : forall_string p (filter_string p s) = true.
Proof.
  induction s as [| c s IH]; cbn [filter_string]; [reflexivity|].
  destruct (p c) eqn:E; [cbn [forall_string]; now rewrite E|exact IH].
Qed.

(** X1.  [sanitize_sku] returns a string of printable characters only; a
    string that is already printable is returned unchanged, so sanitizing
    twice changes nothing; anything that is not a string gives "". *)
Theorem sanitize_sku_printable v :
  forall_string isprintable (sanitize_sku v) = true /\
  sanitize_sku (JStr (sanitize_sku v)) = sanitize_sku v /\
  (forall s, v = JStr s -> forall_string isprintable s = true -> sanitize_sku v = s) /\
  ((forall s, v <> JStr s) -> sanitize_sku v = "").
Proof.
  assert (H : forall_string isprintable (sanitize_sku v) = true)
    by (destruct v; try reflexivity; apply filter_string_all).
  split; [exact H|]. split; [|split].
  - cbn [sanitize_sku]. now apply filter_printable.
  - intros s -> Hs. now apply filter_printable.
  - intros Hn. destruct v; try reflexivity. now destruct (Hn s).
Qed.

(** X2.  [round_to_5_or_10] is the ceiling to a multiple of 5 of the
    truncated price, [5 * ceil(t / 5)], and fails exactly as [int()] does
    (infinity, NaN); on ints it is monotone and leaves its own results
    unchanged. *)
Theorem round_to_5_or_10_ceiling :
  (forall P t, py_int P = Ok t -> round_to_5_or_10 P = Ok (5 * ((t + 4) / 5))) /\
  (forall P e, py_int P = Raise e -> round_to_5_or_10 P = Raise e) /\
  round_to_5_or_10 (NFloat NaN) = Raise ValueError /\
  (forall s, round_to_5_or_10 (NFloat (Inf s)) = Raise OverflowError) /\
  (forall a b ra rb,
     a <= b -> round_to_5_or_10 (NInt a) = Ok ra -> round_to_5_or_10 (NInt b) = Ok rb ->
     ra <= rb) /\
  (forall z r, round_to_5_or_10 (NInt z) = Ok r -> round_to_5_or_10 (NInt r) = Ok r).
Proof.
  assert (H1 : forall P t, py_int P = Ok t ->
                 round_to_5_or_10 P = Ok (5 * ((t + 4) / 5))).
  { intros P t Ht.
    destruct (round_to_5_or_10_int P t Ht) as (r & -> & H5 & Hb & _).
    f_equal. apply Z.mod_divide in H5; [|lia]. destruct H5 as [q ->].
    assert ((t + 4) / 5 = q); [|lia].
    symmetry. apply Z.div_unique with (t + 4 - 5 * q); lia. }
  split; [exact H1|]. split; [|split; [|split; [|split]]].
  - intros P e He. unfold round_to_5_or_10. now rewrite He.
  - reflexivity.
  - reflexivity.
  - intros a b ra rb Hab Ha Hb.
    rewrite (H1 (NInt a) a eq_refl) in Ha. rewrite (H1 (NInt b) b eq_refl) in Hb.
    injection Ha as <-. injection Hb as <-.
    assert ((a + 4) / 5 <= (b + 4) / 5) by (apply Z.div_le_mono; lia). lia.
  - intros z r Hz. rewrite (H1 (NInt z) z eq_refl) in Hz. injection Hz as <-.
    rewrite (H1 (NInt _) _ eq_refl). f_equal. f_equal.
    symmetry. apply Z.div_unique with 4; lia.
Qed.

(* ===================================================================== *)
(** ** Further properties: [main] without configuration *)
(* ===================================================================== *)

Lemma filter_first (P : string -> bool) before x after :
  forallb (fun v => negb (P v)) before = true -> P x = true ->
  filter P (before ++ x :: after) = x :: filter P after.
Proof.
  intros Hb Hx. induction before as [| b before IH]; cbn [app].
  - rewrite filter_cons. destruct (decide (P x)) as [_ | n]; [reflexivity|].
    rewrite Hx in n. now destruct n.
  - cbn [forallb] in Hb. apply andb_true_iff in Hb as [Hb1 Hb2].
    rewrite filter_cons. destruct (decide (P b)) as [y | _]; [|now apply IH].
    destruct (P b); [discriminate Hb1 | destruct y].
Qed.

(** X3.  [main] checks the required variables in the order of the list and
    stops at the first one that is unset or empty: it prints the line
    naming that variable and returns, and no request is sent, whatever the
    variables after it are. *)
Theorem main_missing_variable w before var after :
  required_vars = before ++ var :: after ->
  forallb (fun v => negb (unset w v)) before = true ->
  unset w var = true ->
  main w = ([Print (MissingVariable var)], Ok tt).
Proof.
  intros Hv Hb Hu. unfold main. rewrite Hv.
  now rewrite (filter_first (unset w) before var after Hb Hu).
Qed.

Lemma main_missing_variable_witness :
  main (World (fun var => if bool_decide (var = "LOCATION_ID") then Some "" else Some "x")
          two_variants two_records (fun _ => stock_accepted) (fun _ => ok_json JNull))
  = ([Print (MissingVariable "LOCATION_ID")], Ok tt).
Proof.
  apply (main_missing_variable _ ["SHOPIFY_STORE"; "SHOPIFY_TOKEN"] "LOCATION_ID"
           ["POS_BASE_URL"; "POS_PASSWORD"]); reflexivity.
Defined.

(* ===================================================================== *)
(** ** Further properties: the storefront listing *)
(* ===================================================================== *)

Lemma py_get_getitem v k d s x :
  py_get v k d = Ok s -> py_getitem v k = Ok x -> s = x.
Proof.
  destruct v; try discriminate. cbn [py_get py_getitem].
  destruct (lookup_item k items); congruence.
Qed.

Lemma py_get_raises v k d e : py_get v k d = Raise e -> e = AttributeError.
Proof.
  destruct v; cbn [py_get]; try congruence.
  destruct (lookup_item k items); discriminate.
Qed.

Lemma py_getitem_of_get v k d s k' e :
  py_get v k d = Ok s -> py_getitem v k' = Raise e -> e = KeyError.
Proof.
  destruct v; try discriminate. cbn [py_getitem].
  destruct (lookup_item k' items); congruence.
Qed.

Lemma py_getitem_raises v k e : py_getitem v k = Raise e -> e = KeyError \/ e = TypeError.
Proof.
  destruct v; cbn [py_getitem]; try (intros [= <-]; now right).
  destruct (lookup_item k items); [discriminate | intros [= <-]; now left].
Qed.

Lemma py_iter_raises v e : py_iter v = Raise e -> e = TypeError.
Proof. destruct v; cbn [py_iter]; congruence. Qed.

Lemma variants_loop_cases vs : forall skus,
  match variants_loop vs skus with
  | Ok r => exists more, r = skus ++ more /\ Forall kept more
  | Raise e => e = AttributeError \/ e = KeyError
  end.
Proof.
  induction vs as [| v vs IH]; intros skus; cbn [variants_loop].
  - exists []. now rewrite app_nil_r.
  - destruct (py_get v "sku" JNull) as [s | e] eqn:Hs; cbn [obind];
      [|left; eapply py_get_raises; eassumption].
    destruct (py_truthy s) eqn:Ts; cbn [obind]; [|apply IH].
    destruct (py_get v "inventory_item_id" JNull) as [i | e] eqn:Hi; cbn [obind];
      [|left; eapply py_get_raises; eassumption].
    destruct (py_truthy i) eqn:Ti; [|apply IH].
    destruct (py_getitem v "sku") as [v_sku | e] eqn:H1; cbn [obind];
      [|right; exact (py_getitem_of_get _ _ _ _ _ _ Hs H1)].
    destruct (py_getitem v "inventory_item_id") as [v_iid | e] eqn:H2; cbn [obind];
      [|right; exact (py_getitem_of_get _ _ _ _ _ _ Hi H2)].
    destruct (py_getitem v "id") as [v_id | e] eqn:H3; cbn [obind];
      [|right; exact (py_getitem_of_get _ _ _ _ _ _ Hs H3)].
    destruct (py_get v "price" (JStr "0.0")) as [v_price | e] eqn:H4; cbn [obind];
      [|left; eapply py_get_raises; eassumption].
    destruct (py_get v "compare_at_price" JNull) as [v_cmp | e] eqn:H5; cbn [obind];
      [|left; eapply py_get_raises; eassumption].
    specialize (IH (skus ++ [Item v_sku v_iid v_id v_price v_cmp])).
    destruct (variants_loop vs _) as [r | e]; [|exact IH].
    destruct IH as (more & -> & Hmore).
    exists (Item v_sku v_iid v_id v_price v_cmp :: more).
    split; [now rewrite <- app_assoc|].
    constructor; [|exact Hmore]. split; cbn [sku inventory_item_id].
    + now rewrite <- (py_get_getitem _ _ _ _ _ Hs H1).
    + now rewrite <- (py_get_getitem _ _ _ _ _ Hi H2).
Qed.

Lemma products_loop_cases ps : forall skus,
  match products_loop ps skus with
  | Ok r => exists more, r = skus ++ more /\ Forall kept more
  | Raise e => malformed e
  end.
Proof.
  unfold malformed.
  induction ps as [| p ps IH]; intros skus; cbn [products_loop].
  - exists []. now rewrite app_nil_r.
  - destruct (py_getitem p "variants") as [vs | e] eqn:Hv; cbn [obind];
      [|apply py_getitem_raises in Hv; tauto].
    destruct (py_iter vs) as [l | e] eqn:Hl; cbn [obind];
      [|apply py_iter_raises in Hl; tauto].
    pose proof (variants_loop_cases l skus) as H.
    destruct (variants_loop l skus) as [skus1 | e]; cbn [obind]; [|tauto].
    destruct H as (more1 & -> & H1).
    specialize (IH (skus ++ more1)).
    destruct (products_loop ps _) as [r | e]; [|exact IH].
    destruct IH as (more2 & -> & H2).
    exists (more1 ++ more2). split; [now rewrite app_assoc|].
    apply Forall_app. now split.
Qed.

Lemma raise_for_status_raises r e : raise_for_status r = Raise e -> e = RequestException.
Proof.
  destruct r as [| status body | status why]; cbn [raise_for_status];
    [congruence | |]; destruct (_ && _); congruence.
Qed.

Lemma response_json_raises r e :
  response_json r = Raise e -> e = RequestException \/ refused e.
Proof.
  unfold refused.
  destruct r as [| status [j |] | status []]; cbn [response_json refusal_exn];
    try discriminate; intros [= <-]; tauto.
Qed.

(** One turn of the loop of lines 57-85. *)
Lemma fetch_page_cases resp skus :
  match fetch_page resp skus with
  | (t, Ok (Some r)) =>
      t = [GetProducts] /\ ~ request_failed resp /\
      exists more, r = skus ++ more /\ Forall kept more
  | (t, Ok None) => t = [GetProducts; Print ShopifyFetchError] /\ request_failed resp
  | (t, Raise e) =>
      t = [GetProducts] /\ ~ request_failed resp /\ (malformed e \/ refused e)
  end.
Proof.
  unfold fetch_page, request_failed. cbn [bind emit lift app].
  destruct (raise_for_status resp) as [[] | e1] eqn:H1; cbn [bind app].
  2:{ apply raise_for_status_raises in H1 as ->. cbn. tauto. }
  destruct (response_json resp) as [j | e2] eqn:H2; cbn [bind app].
  2:{ apply response_json_raises in H2. unfold refused in *.
      destruct H2 as [-> | [-> | ->]]; cbn; [tauto | |];
        (split; [reflexivity|]); (split; [|tauto]);
        intros [H | H]; discriminate H. }
  assert (Hn : ~ (Ok tt = Raise RequestException \/ Ok j = Raise RequestException))
    by (intros [H | H]; discriminate H).
  destruct (py_get j "products" (JArr [])) as [ps | e3] eqn:H3; cbn [bind app].
  2:{ apply py_get_raises in H3 as ->. cbn. unfold malformed. tauto. }
  destruct (py_iter ps) as [prods | e4] eqn:H4; cbn [bind app].
  2:{ apply py_iter_raises in H4 as ->. cbn. unfold malformed. tauto. }
  pose proof (products_loop_cases prods skus) as H5.
  destruct (products_loop prods skus) as [r | e5]; cbn [bind app].
  - cbn. tauto.
  - unfold malformed in *. destruct H5 as [-> | [-> | ->]]; cbn; tauto.
Qed.

Lemma fetch_page_failed resp skus :
  request_failed resp ->
  fetch_page resp skus = ([GetProducts; Print ShopifyFetchError], Ok None).
Proof.
  intros Hf. pose proof (fetch_page_cases resp skus) as H.
  destruct (fetch_page resp skus) as [t [[r |] | e]].
  - tauto.
  - now destruct H as [-> _].
  - tauto.
Qed.

Lemma repeat_snoc {A} (x : A) n : repeat x n ++ [x] = x :: repeat x n.
Proof. induction n as [| n IH]; cbn; [reflexivity | now rewrite IH]. Qed.

(** The whole loop. *)
Lemma pages_loop_cases l : forall skus,
  match pages_loop l skus with
  | (t, Ok (Some r)) =>
      t = repeat GetProducts (pages l) ++ [Print (ShopifyRetrieved (length r))] /\
      exists more, r = skus ++ more /\ Forall kept more
  | (t, Ok None) =>
      exists n, (n < pages l)%nat /\
        t = repeat GetProducts (S n) ++ [Print ShopifyFetchError]
  | (t, Raise e) =>
      exists n, (n < pages l)%nat /\ t = repeat GetProducts (S n) /\
                (malformed e \/ refused e)
  end.
Proof.
  induction l as [resp | resp next IH]; intros skus; cbn [pages_loop pages];
    pose proof (fetch_page_cases resp skus) as Hf;
    destruct (fetch_page resp skus) as [t [[skus1 |] | e]]; cbn [bind ret print emit].
  - destruct Hf as (-> & _ & Hm). now split.
  - destruct Hf as [-> _]. exists 0%nat. split; [lia | reflexivity].
  - destruct Hf as (-> & _ & He). exists 0%nat. split; [lia|]. now split.
  - destruct Hf as (-> & _ & more1 & -> & H1).
    specialize (IH (skus ++ more1)).
    destruct (pages_loop next _) as [t2 [[r |] | e]].
    + destruct IH as (-> & more2 & -> & H2). split; [reflexivity|].
      exists (more1 ++ more2). split; [now rewrite app_assoc|].
      apply Forall_app. now split.
    + destruct IH as (n & Hn & ->). exists (S n). split; [lia | reflexivity].
    + destruct IH as (n & Hn & -> & He). exists (S n). split; [lia|]. now split.
  - destruct Hf as [-> _]. exists 0%nat. split; [lia | reflexivity].
  - destruct Hf as (-> & _ & He). exists 0%nat. split; [lia|]. now split.
Qed.

(** X4.  [get_shopify_skus] is all or nothing.  When it returns a list,
    every page of the listing was requested once and the only line printed,
    last, is the count of the list returned; when it returns [None], it
    sent one request per page up to some page of the listing and then
    printed the error line.  A page whose request fails gives [None]
    whatever the earlier pages had collected. *)
Theorem get_shopify_skus_all_or_nothing w t r :
  get_shopify_skus w = (t, Ok r) ->
  match r with
  | Some items =>
      t = repeat GetProducts (pages (products w))
            ++ [Print (ShopifyRetrieved (length items))]
  | None =>
      exists n, (n < pages (products w))%nat /\
        t = repeat GetProducts (S n) ++ [Print ShopifyFetchError]
  end /\
  (forall resp next collected,
     request_failed resp ->
     pages_loop (LastPage resp) collected
       = ([GetProducts; Print ShopifyFetchError], Ok None) /\
     pages_loop (MorePages resp next) collected
       = ([GetProducts; Print ShopifyFetchError], Ok None)).
Proof.
  intros H. unfold get_shopify_skus in H.
  pose proof (pages_loop_cases (products w) []) as Hc. rewrite H in Hc.
  split.
  - destruct r as [items |]; [now destruct Hc | exact Hc].
  - intros resp next collected Hf. cbn [pages_loop].
    rewrite (fetch_page_failed resp collected Hf). split; reflexivity.
Qed.

Lemma get_shopify_skus_all_or_nothing_witness :
  [GetProducts; Print (ShopifyRetrieved 2)]
  = repeat GetProducts (pages two_variants) ++ [Print (ShopifyRetrieved 2)].
Proof.
  exact (proj1 (get_shopify_skus_all_or_nothing (world_with stock_accepted)
                  [GetProducts; Print (ShopifyRetrieved 2)]
                  (Some [Item (JStr "A") (JInt 11) (JInt 21) (JStr "100.00") JNull;
                         Item (JStr "B") (JInt 12) (JInt 22) (JStr "100.00") JNull])
                  eq_refl)).
Defined.

(** X5.  Every variant that [get_shopify_skus] returns passed the test of
    line 64: its SKU and its inventory item id are truthy (not [None], not
    empty, not zero). *)
Theorem get_shopify_skus_kept w t items :
  get_shopify_skus w = (t, Ok (Some items)) -> Forall kept items.
Proof.
  intros H. unfold get_shopify_skus in H.
  pose proof (pages_loop_cases (products w) []) as Hc. rewrite H in Hc.
  destruct Hc as (_ & more & -> & Hk). exact Hk.
Qed.

Lemma get_shopify_skus_kept_witness :
  Forall kept [Item (JStr "A") (JInt 11) (JInt 21) (JStr "100.00") JNull;
               Item (JStr "B") (JInt 12) (JInt 22) (JStr "100.00") JNull].
Proof.
  exact (get_shopify_skus_kept (world_with stock_accepted)
           [GetProducts; Print (ShopifyRetrieved 2)] _ eq_refl).
Defined.

(** X6.  The handler of line 83 catches [RequestException] and nothing
    else.  What leaves [get_shopify_skus] is the exception of a body that
    the decoder refuses ([ValueError], [RecursionError]: [resp.json()]
    turns only a [JSONDecodeError] into a [RequestException]) or of a
    decoded body that has not the expected shape ([AttributeError],
    [KeyError], [TypeError]); nothing is printed then, and [main], which
    has no handler, ends with the same exception before the POS export is
    requested. *)
Theorem get_shopify_skus_escapes w t e :
  get_shopify_skus w = (t, Raise e) ->
  (malformed e \/ refused e) /\
  (exists n, (n < pages (products w))%nat /\ t = repeat GetProducts (S n)) /\
  (filter (unset w) required_vars = [] -> main w = (t, Raise e)).
Proof.
  intros H. pose proof (pages_loop_cases (products w) []) as Hc.
  unfold get_shopify_skus in H. rewrite H in Hc.
  destruct Hc as (n & Hn & -> & He). split; [exact He|]. split; [eauto|].
  intros Hv. unfold main, get_shopify_skus. rewrite Hv, H. reflexivity.
Qed.

Lemma get_shopify_skus_escapes_witness :
  main (World env_set variant_without_id two_records
          (fun _ => stock_accepted) (fun _ => ok_json JNull))
  = ([GetProducts], Raise KeyError).
Proof.
  exact (proj2 (proj2 (get_shopify_skus_escapes
           (World env_set variant_without_id two_records
              (fun _ => stock_accepted) (fun _ => ok_json JNull))
           [GetProducts] KeyError eq_refl)) eq_refl).
Defined.

(* ===================================================================== *)
(** ** Further properties: the POS snapshot *)
(* ===================================================================== *)

Lemma pos_loop_step it rest m0 :
  pos_loop (it :: rest) m0 =
  match pos_guard it with
  | Raise e => Raise e
  | Ok false => pos_loop rest m0
  | Ok true =>
      let? id := py_getitem it "ID" in
      let? sku := py_str id in
      let? qua := py_getitem it "Qua" in
      let? qf := py_float qua in
      let? quantity := int_of_float qf in
      let? pr := py_get it "Price" (JInt 0) in
      let? price := py_float pr in
      pos_loop rest (<[sku := PosEntry quantity price]> m0)
  end.
Proof. cbn [pos_loop]. destruct (pos_guard it) as [[|] | e]; reflexivity. Qed.

(** The loop of lines 104-118 in one of its two successful turns. *)
Lemma pos_loop_inv it rest m0 m :
  pos_loop (it :: rest) m0 = Ok m ->
  (pos_guard it = Ok false /\ pos_loop rest m0 = Ok m) \/
  (exists key e, record_of it key e /\ pos_loop rest (<[key := e]> m0) = Ok m).
Proof.
  rewrite pos_loop_step. unfold record_of.
  destruct (pos_guard it) as [[|] | x] eqn:Hg; [| tauto | discriminate].
  destruct (py_getitem it "ID") as [id | x] eqn:H1; cbn [obind]; [|discriminate].
  destruct (py_str id) as [key | x] eqn:H2; cbn [obind]; [|discriminate].
  destruct (py_getitem it "Qua") as [qua | x] eqn:H3; cbn [obind]; [|discriminate].
  destruct (py_float qua) as [qf | x] eqn:H4; cbn [obind]; [|discriminate].
  destruct (int_of_float qf) as [q | x] eqn:H5; cbn [obind]; [|discriminate].
  destruct (py_get it "Price" (JInt 0)) as [pr | x] eqn:H6; cbn [obind]; [|discriminate].
  destruct (py_float pr) as [pf | x] eqn:H7; cbn [obind]; [|discriminate].
  intros H. right. exists key, (PosEntry q pf). split; [|exact H].
  split; [reflexivity|]. exists id, qua, qf, pr. cbn [quantity price]. tauto.
Qed.

Lemma record_of_functional it key e key' e' :
  record_of it key e -> record_of it key' e' -> key = key' /\ e = e'.
Proof.
  intros (_ & id & qua & qf & pr & H1 & H2 & H3 & H4 & H5 & H6 & H7)
         (_ & id' & qua' & qf' & pr' & G1 & G2 & G3 & G4 & G5 & G6 & G7).
  rewrite H1 in G1. injection G1 as <-. rewrite H2 in G2. injection G2 as <-.
  rewrite H3 in G3. injection G3 as <-. rewrite H4 in G4. injection G4 as <-.
  rewrite H6 in G6. injection G6 as <-. rewrite H5 in G5. rewrite H7 in G7.
  split; [reflexivity|]. destruct e as [q p], e' as [q' p']; cbn [quantity price] in *. congruence.
Qed.

Lemma pos_loop_sound items : forall m0 m,
  pos_loop items m0 = Ok m ->
  (forall key e, m !! key = Some e ->
     m0 !! key = Some e \/ exists it, In it items /\ record_of it key e) /\
  (size m <= size m0 + length items)%nat.
Proof.
  induction items as [| it rest IH]; intros m0 m H.
  - injection H as <-. split; [tauto | lia].
  - apply pos_loop_inv in H as [[Hg H] | (key' & e' & Hr & H)];
      destruct (IH _ _ H) as [Hs Hn]; split.
    + intros key e Hm. destruct (Hs key e Hm) as [? | (it' & Hin & Hr)]; [tauto|].
      right. exists it'. split; [now right | exact Hr].
    + cbn [length]. lia.
    + intros key e Hm. destruct (Hs key e Hm) as [H0 | (it' & Hin & Hr')].
      * destruct (decide (key' = key)) as [<- | Hne].
        -- rewrite lookup_insert_eq in H0. injection H0 as <-.
           right. exists it. split; [now left | exact Hr].
        -- rewrite lookup_insert_ne in H0 by exact Hne. tauto.
      * right. exists it'. split; [now right | exact Hr'].
    + cbn [length].
      assert (size (<[key' := e']> m0) <= S (size m0))%nat; [|lia].
      destruct (m0 !! key') as [old |] eqn:Hold.
      * rewrite map_size_insert_Some by eauto. lia.
      * rewrite map_size_insert_None by exact Hold. lia.
Qed.

Lemma pos_loop_keeps items : forall m0 m key e,
  pos_loop items m0 = Ok m ->
  m0 !! key = Some e ->
  (forall it e', In it items -> ~ record_of it key e') ->
  m !! key = Some e.
Proof.
  induction items as [| it rest IH]; intros m0 m key e H H0 Hno.
  - now injection H as <-.
  - apply pos_loop_inv in H as [[Hg H] | (key' & e' & Hr & H)].
    + eapply IH; [exact H | exact H0|]. intros it' e'' Hin. apply Hno. now right.
    + eapply IH; [exact H | |intros it' e'' Hin; apply Hno; now right].
      destruct (decide (key' = key)) as [-> | Hne].
      * destruct (Hno it e' (or_introl eq_refl) Hr).
      * now rewrite lookup_insert_ne.
Qed.

Lemma pos_loop_app l1 : forall l2 m0,
  pos_loop (l1 ++ l2) m0 = let? m1 := pos_loop l1 m0 in pos_loop l2 m1.
Proof.
  induction l1 as [| it l1 IH]; intros l2 m0; [reflexivity|].
  cbn [app]. rewrite !pos_loop_step.
  destruct (pos_guard it) as [[|] | x]; [| apply IH | reflexivity].
  destruct (py_getitem it "ID") as [id | x]; cbn [obind]; [|reflexivity].
  destruct (py_str id) as [key | x]; cbn [obind]; [|reflexivity].
  destruct (py_getitem it "Qua") as [qua | x]; cbn [obind]; [|reflexivity].
  destruct (py_float qua) as [qf | x]; cbn [obind]; [|reflexivity].
  destruct (int_of_float qf) as [q | x]; cbn [obind]; [|reflexivity].
  destruct (py_get it "Price" (JInt 0)) as [pr | x]; cbn [obind]; [|reflexivity].
  destruct (py_float pr) as [pf | x]; cbn [obind]; [|reflexivity].
  apply IH.
Qed.

Lemma get_all_pos_inventory_cases w :
  get_all_pos_inventory w =
  match raise_for_status (pos w) with
  | Raise _ => ([Print PosFetching; GetPos; Print PosFetchError], Ok None)
  | Ok _ =>
      match (let? pos_data := response_json (pos w) in
             let? items := py_iter pos_data in
             pos_loop items ∅) with
      | Ok m => ([Print PosFetching; GetPos; Print (PosLoaded (size m))], Ok (Some m))
      | Raise RequestException =>
          ([Print PosFetching; GetPos; Print PosFetchError], Ok None)
      | Raise ValueError | Raise TypeError =>
          ([Print PosFetching; GetPos; Print PosParseError], Ok None)
      | Raise e => ([Print PosFetching; GetPos], Raise e)
      end
  end.
Proof.
  unfold get_all_pos_inventory. cbn [bind print emit lift app].
  destruct (raise_for_status (pos w)) as [[] | e1] eqn:H1; cbn [bind app].
  2:{ apply raise_for_status_raises in H1 as ->. reflexivity. }
  destruct (response_json (pos w)) as [pos_data | []]; cbn [bind app obind];
    try reflexivity.
  destruct (py_iter pos_data) as [items | []]; cbn [bind app obind]; try reflexivity.
  destruct (pos_loop items ∅) as [m | []]; reflexivity.
Qed.

(** X7.  What [get_all_pos_inventory] returns is read from the response and
    from nothing else: every entry of the map comes from a record of the
    response that passed the check of line 107, under the key
    [str(item["ID"])], with [int(float(item["Qua"]))] as quantity and
    [float(item["Price"])] as price; the map has at most one entry per
    record, and exactly three things happened: the two lines printed around
    the one request. *)
Theorem pos_map_sound w t m :
  get_all_pos_inventory w = (t, Ok (Some m)) ->
  exists pos_data items,
    response_json (pos w) = Ok pos_data /\ py_iter pos_data = Ok items /\
    (forall key e, m !! key = Some e -> exists it, In it items /\ record_of it key e) /\
    (size m <= length items)%nat /\
    t = [Print PosFetching; GetPos; Print (PosLoaded (size m))].
Proof.
  intros H. rewrite get_all_pos_inventory_cases in H.
  destruct (raise_for_status (pos w)) as [[] | e1]; [|discriminate H].
  destruct (response_json (pos w)) as [pos_data | e2] eqn:Hj; cbn [obind] in H;
    [|destruct e2; discriminate H].
  destruct (py_iter pos_data) as [items | e3] eqn:Hi; cbn [obind] in H;
    [|destruct e3; discriminate H].
  destruct (pos_loop items ∅) as [m' | e4] eqn:Hl; [|destruct e4; discriminate H].
  injection H as <- <-.
  destruct (pos_loop_sound _ _ _ Hl) as [Hs Hn].
  exists pos_data, items. split; [reflexivity|]. split; [exact Hi|].
  split; [|split; [|reflexivity]].
  - intros key e Hm. destruct (Hs key e Hm) as [H0 | Hr]; [|exact Hr].
    rewrite lookup_empty in H0. discriminate H0.
  - rewrite map_size_empty in Hn. lia.
Qed.

(** X8.  When two records of the export give the same key, the later one
    wins: the entry of a key is the one read from the last record that
    gives this key. *)
Theorem pos_later_record_wins before it after m key e :
  pos_loop (before ++ it :: after) ∅ = Ok m ->
  record_of it key e ->
  (forall it' e', In it' after -> ~ record_of it' key e') ->
  m !! key = Some e.
Proof.
  intros H Hr Hno. rewrite pos_loop_app in H.
  destruct (pos_loop before ∅) as [m1 | x]; cbn [obind] in H; [|discriminate H].
  apply pos_loop_inv in H as [[Hg _] | (key' & e' & Hr' & H)].
  - destruct Hr as [Hg' _]. congruence.
  - destruct (record_of_functional _ _ _ _ _ Hr Hr') as [<- <-].
    eapply pos_loop_keeps; [exact H | apply lookup_insert_eq | exact Hno].
Qed.

(** X9.  A request that fails (no response, an error status, a body that is
    not JSON) and a body that cannot be iterated over make
    [get_all_pos_inventory] return [None] after the line of its handler, the
    first or the second. *)
Theorem pos_snapshot_failures w :
  (request_failed (pos w) ->
   get_all_pos_inventory w = ([Print PosFetching; GetPos; Print PosFetchError], Ok None)) /\
  (forall status body e,
     pos w = Response status (Some body) ->
     raise_for_status (pos w) = Ok tt -> py_iter body = Raise e ->
     get_all_pos_inventory w = ([Print PosFetching; GetPos; Print PosParseError], Ok None)).
Proof.
  rewrite get_all_pos_inventory_cases. split.
  - intros [Hf | Hf]; [now rewrite Hf|].
    destruct (raise_for_status (pos w)); [|reflexivity]. now rewrite Hf.
  - intros status body e Hp Hs Hi. rewrite Hs, Hp. cbn [response_json obind].
    rewrite Hi. apply py_iter_raises in Hi as ->. reflexivity.
Qed.

Lemma pos_map_sound_witness :
  exists pos_data items,
    response_json (pos (world_with stock_accepted)) = Ok pos_data /\
    py_iter pos_data = Ok items /\
    (forall key e, built_map (world_with stock_accepted) !! key = Some e ->
       exists it, In it items /\ record_of it key e) /\
    (size (built_map (world_with stock_accepted)) <= length items)%nat /\
    [Print PosFetching; GetPos; Print (PosLoaded 2)]
    = [Print PosFetching; GetPos;
       Print (PosLoaded (size (built_map (world_with stock_accepted))))].
Proof.
  apply (pos_map_sound (world_with stock_accepted)
           [Print PosFetching; GetPos; Print (PosLoaded 2)]).
  vm_compute. reflexivity.
Defined.

Lemma pos_later_record_wins_witness :
  exists m : gmap string pos_entry,
    pos_loop same_id_twice ∅ = Ok m /\ m !! "A" = Some (PosEntry 4 (Fin (100 * one))).
Proof.
  exists {[ "A" := PosEntry 4 (Fin (100 * one)) ]}.
  assert (H : pos_loop same_id_twice ∅ = Ok {[ "A" := PosEntry 4 (Fin (100 * one)) ]})
    by (vm_compute; reflexivity).
  split; [exact H|].
  apply (pos_later_record_wins [pos_record (JStr "A") (JStr "3") (JStr "100.00")]
           (pos_record (JStr "A") (JStr "4") (JStr "100.00")) [] _ "A" _ H).
  - split; [reflexivity|].
    exists (JStr "A"), (JStr "4"), (Fin (4 * one)), (JStr "100.00").
    split; [reflexivity|]. split; [reflexivity|]. split; [reflexivity|].
    split; [vm_compute; reflexivity|]. split; [vm_compute; reflexivity|].
    split; [reflexivity|]. vm_compute; reflexivity.
  - intros it' e' [].
Defined.

Lemma pos_snapshot_failures_witness :
  get_all_pos_inventory
    (World env_set two_variants (Response 503 None)
       (fun _ => stock_accepted) (fun _ => ok_json JNull))
  = ([Print PosFetching; GetPos; Print PosFetchError], Ok None).
Proof.
  apply (proj1 (pos_snapshot_failures _)). left. reflexivity.
Defined.

Lemma pos_guard_obj items :
  pos_guard (JObj items) = Ok true ->
  is_Some (lookup_item "ID" items) /\ is_Some (lookup_item "Qua" items).
Proof.
  unfold pos_guard. destruct (py_truthy (JObj items)); [|discriminate].
  cbn [py_contains obind].
  case_bool_decide; [|discriminate]. case_bool_decide; [|discriminate]. tauto.
Qed.

Lemma pos_guard_getitem it k e :
  pos_guard it = Ok true -> k = "ID" \/ k = "Qua" ->
  py_getitem it k = Raise e -> e = TypeError.
Proof.
  intros Hg Hk. destruct it; cbn [py_getitem]; try congruence.
  apply pos_guard_obj in Hg as [[x Hx] [y Hy]].
  destruct Hk as [-> | ->]; [rewrite Hx | rewrite Hy]; discriminate.
Qed.

Lemma pos_guard_raises it e : pos_guard it = Raise e -> e = TypeError.
Proof.
  unfold pos_guard. destruct (py_truthy it); [|discriminate].
  destruct it; cbn [py_contains obind]; try congruence.
  - destruct (str_contains "ID" s); [|discriminate].
    destruct (str_contains "Qua" s); discriminate.
  - destruct (existsb (is_str "ID") l); [|discriminate].
    destruct (existsb (is_str "Qua") l); discriminate.
  - destruct (bool_decide _); [|discriminate].
    destruct (bool_decide _); discriminate.
Qed.

Lemma py_float_raises v e :
  py_float v = Raise e -> e = ValueError \/ e = TypeError \/ e = OverflowError.
Proof.
  destruct v; cbn [py_float]; try (intros [= <-]; tauto); try discriminate.
  - unfold float_of_int. destruct (fin_round _ _); [discriminate | |];
      intros [= <-]; tauto.
  - intros H. apply float_of_string_raises in H. tauto.
Qed.

Lemma int_of_float_raises x e :
  int_of_float x = Raise e -> e = OverflowError \/ e = ValueError.
Proof. destruct x; cbn [int_of_float]; [discriminate | |]; intros [= <-]; tauto. Qed.

Lemma py_str_returns v : exists text, py_str v = Ok text.
Proof. destruct v; cbn [py_str]; eauto. Qed.

Lemma pos_loop_raises items : forall m0 e,
  pos_loop items m0 = Raise e ->
  e = ValueError \/ e = TypeError \/ e = OverflowError.
Proof.
  induction items as [| it rest IH]; intros m0 e; [discriminate|].
  rewrite pos_loop_step.
  destruct (pos_guard it) as [[|] | x] eqn:Hg; [| apply IH |].
  2:{ apply pos_guard_raises in Hg as ->. intros [= <-]. tauto. }
  destruct (py_getitem it "ID") as [id | x] eqn:H1; cbn [obind].
  2:{ apply (pos_guard_getitem _ _ _ Hg) in H1 as ->; [|tauto]. intros [= <-]. tauto. }
  destruct (py_str_returns id) as [key ->]; cbn [obind].
  destruct (py_getitem it "Qua") as [qua | x] eqn:H3; cbn [obind].
  2:{ apply (pos_guard_getitem _ _ _ Hg) in H3 as ->; [|tauto]. intros [= <-]. tauto. }
  destruct (py_float qua) as [qf | x] eqn:H4; cbn [obind].
  2:{ apply py_float_raises in H4. intros [= <-]. tauto. }
  destruct (int_of_float qf) as [q | x] eqn:H5; cbn [obind].
  2:{ apply int_of_float_raises in H5. intros [= <-]. tauto. }
  destruct (py_get it "Price" (JInt 0)) as [pr | x] eqn:H6; cbn [obind].
  2:{ destruct it; try discriminate H1. cbn [py_get] in H6.
      destruct (lookup_item "Price" items); discriminate H6. }
  destruct (py_float pr) as [pf | x] eqn:H7; cbn [obind].
  2:{ apply py_float_raises in H7. intros [= <-]. tauto. }
  apply IH.
Qed.

(** X10.  The handlers of lines 123-128 catch [RequestException],
    [ValueError] and [TypeError]: a body with an integer literal too long,
    which [resp.json()] refuses with [ValueError], gives [None] as a body
    that is not JSON does.  What leaves [get_all_pos_inventory] is the
    [RecursionError] of a body nested too deep and the [OverflowError] of a
    quantity or a price that does not fit ([float()] of a huge int,
    [int()] of an infinity); nothing is printed after the request then. *)
Theorem pos_snapshot_escapes w t e :
  get_all_pos_inventory w = (t, Raise e) ->
  t = [Print PosFetching; GetPos] /\ (e = OverflowError \/ e = RecursionError).
Proof.
  intros H. rewrite get_all_pos_inventory_cases in H.
  destruct (raise_for_status (pos w)) as [[] | e1]; [|discriminate H].
  destruct (response_json (pos w)) as [pos_data | e2] eqn:Hj; cbn [obind] in H.
  2:{ apply response_json_raises in Hj. unfold refused in Hj.
      destruct Hj as [-> | [-> | ->]]; try discriminate H.
      injection H as <- <-. tauto. }
  destruct (py_iter pos_data) as [items | e3] eqn:Hi; cbn [obind] in H.
  2:{ apply py_iter_raises in Hi as ->. discriminate H. }
  destruct (pos_loop items ∅) as [m' | e4] eqn:Hl; [discriminate H|].
  apply pos_loop_raises in Hl.
  destruct Hl as [-> | [-> | ->]]; try discriminate H.
  injection H as <- <-. tauto.
Qed.

Lemma pos_snapshot_escapes_witness :
  get_all_pos_inventory (pos_world infinite_quantity)
    = ([Print PosFetching; GetPos], Raise OverflowError) /\
  ([Print PosFetching; GetPos] = [Print PosFetching; GetPos] /\
   (OverflowError = OverflowError \/ OverflowError = RecursionError)).
Proof.
  assert (H : get_all_pos_inventory (pos_world infinite_quantity)
              = ([Print PosFetching; GetPos], Raise OverflowError))
    by (vm_compute; reflexivity).
  split; [exact H|]. exact (pos_snapshot_escapes _ _ _ H).
Defined.

(* ===================================================================== *)
(** ** Further properties: the stock update *)
(* ===================================================================== *)

Lemma py_getitem0_raises v e : py_getitem0 v = Raise e -> shape_error e.
Proof.
  unfold shape_error.
  destruct v as [| | | | | | [|] | [|] |]; cbn [py_getitem0];
    try discriminate; intros [= <-]; tauto.
Qed.

Lemma update_shopify_stock_cases iid sku q resp :
  match update_shopify_stock iid sku q resp with
  | (t, Ok true) => t = [PostStock iid q] /\ ~ request_failed resp
  | (t, Ok false) =>
      (t = [PostStock iid q; Print (StockError sku)] /\ request_failed resp) \/
      (exists msg, t = [PostStock iid q; Print (StockRejected sku msg)] /\
                   ~ request_failed resp)
  | (t, Raise e) =>
      t = [PostStock iid q] /\ (shape_error e \/ refused e) /\ ~ request_failed resp
  end.
Proof.
  unfold update_shopify_stock, request_failed. cbn [bind emit lift app].
  destruct (raise_for_status resp) as [[] | e1] eqn:H1; cbn [bind app].
  2:{ apply raise_for_status_raises in H1 as ->. cbn. tauto. }
  destruct (response_json resp) as [j | e2] eqn:H2; cbn [bind app].
  2:{ apply response_json_raises in H2. unfold refused in *.
      destruct H2 as [-> | [-> | ->]]; cbn; [tauto | |];
        (split; [reflexivity|]); (split; [tauto|]);
        intros [H | H]; discriminate H. }
  assert (Hn : ~ (Ok tt = Raise RequestException \/ Ok j = Raise RequestException))
    by (intros [H | H]; discriminate H).
  assert (Ha : shape_error AttributeError) by (unfold shape_error; tauto).
  destruct (py_get j "data" (JObj [])) as [data | e3] eqn:H3; cbn [bind app].
  2:{ apply py_get_raises in H3 as ->. cbn. tauto. }
  destruct (py_get data "inventorySetOnHandQuantities" (JObj [])) as [result | e4] eqn:H4;
    cbn [bind app].
  2:{ apply py_get_raises in H4 as ->. cbn. tauto. }
  destruct (py_get result "userErrors" (JArr [])) as [ue | e5] eqn:H5; cbn [bind app].
  2:{ apply py_get_raises in H5 as ->. cbn. tauto. }
  destruct (py_truthy ue); cbn [bind lift ret app try_except]; [|tauto].
  destruct (py_getitem0 ue) as [first | e6] eqn:H6; cbn [bind app].
  2:{ apply py_getitem0_raises in H6.
      unfold shape_error in H6. destruct H6 as [-> | [-> | [-> | ->]]]; cbn;
        unfold shape_error; tauto. }
  destruct (py_getitem first "message") as [msg | e7] eqn:H7; cbn [bind app].
  2:{ apply py_getitem_raises in H7. destruct H7 as [-> | ->]; cbn;
        unfold shape_error; tauto. }
  cbn. right. exists msg. tauto.
Qed.

(** X11.  [update_shopify_stock] sends exactly one request, first of all.
    It returns [True] without a word; it returns [False] only after
    printing why: the request failed, or the answer lists a user error,
    whose message is printed.  A failed request always gives [False].  The
    handler of line 187 catches [RequestException] only: what the function
    can raise is the exception of an answer that the decoder refuses
    ([ValueError], [RecursionError]) or of a decoded answer that has not
    the documented shape ([AttributeError], [KeyError], [IndexError],
    [TypeError]), and nothing is printed then. *)
Theorem stock_update_outcome iid sku q resp :
  (request_failed resp ->
   update_shopify_stock iid sku q resp
     = ([PostStock iid q; Print (StockError sku)], Ok false)) /\
  (forall t, update_shopify_stock iid sku q resp = (t, Ok true) ->
     t = [PostStock iid q] /\ ~ request_failed resp) /\
  (forall t, update_shopify_stock iid sku q resp = (t, Ok false) ->
     t = [PostStock iid q; Print (StockError sku)] \/
     exists msg, t = [PostStock iid q; Print (StockRejected sku msg)]) /\
  (forall t e, update_shopify_stock iid sku q resp = (t, Raise e) ->
     t = [PostStock iid q] /\ (shape_error e \/ refused e)).
Proof.
  pose proof (update_shopify_stock_cases iid sku q resp) as Hc.
  destruct (update_shopify_stock iid sku q resp) as [t0 [[|] | e0]].
  - split; [tauto|]. split; [intros t [= <-]; exact Hc|].
    split; [intros t H; discriminate H | intros t e H; discriminate H].
  - split.
    + intros Hf. destruct Hc as [[-> _] | (msg & _ & Hn)]; [reflexivity | tauto].
    + split; [intros t H; discriminate H|].
      split; [|intros t e H; discriminate H].
      intros t [= <-]. destruct Hc as [[-> _] | (msg & -> & _)]; eauto.
  - split; [tauto|]. split; [intros t H; discriminate H|].
    split; [intros t H; discriminate H|].
    intros t e [= <- <-]. tauto.
Qed.

Lemma update_shopify_stock_accepts iid sku q status j :
  status_ok status ->
  (py_get j "data" (JObj []) = Ok (JObj []) \/
   exists data result,
     py_get j "data" (JObj []) = Ok data /\
     py_get data "inventorySetOnHandQuantities" (JObj []) = Ok result /\
     py_get result "userErrors" (JArr []) = Ok (JArr [])) ->
  update_shopify_stock iid sku q (Response status (Some j)) = ([PostStock iid q], Ok true).
Proof.
  unfold status_ok. intros Hs H.
  unfold update_shopify_stock. cbn [bind emit lift app raise_for_status response_json].
  rewrite Hs. cbn [bind app].
  destruct H as [-> | (data & result & -> & H2 & H3)]; cbn [bind app].
  - reflexivity.
  - rewrite H2. cbn [bind app]. rewrite H3. reflexivity.
Qed.

(** X12.  How the answer to the stock mutation is read, for a status that
    is not an error.  An answer without a ["data"] member (as the GraphQL
    answer that has only ["errors"]) counts as a success, and so does the
    documented answer with an empty [userErrors]; with a first user error
    that has a message, the update returns [False] and prints that
    message, whatever errors follow. *)
Theorem stock_answer_reading iid sku q status :
  status_ok status ->
  (forall items, lookup_item "data" items = None ->
     update_shopify_stock iid sku q (Response status (Some (JObj items)))
       = ([PostStock iid q], Ok true)) /\
  update_shopify_stock iid sku q (Response status (Some (stock_reply (JArr []))))
    = ([PostStock iid q], Ok true) /\
  (forall first others msg,
     py_getitem first "message" = Ok msg ->
     update_shopify_stock iid sku q
       (Response status (Some (stock_reply (JArr (first :: others)))))
       = ([PostStock iid q; Print (StockRejected sku msg)], Ok false)).
Proof.
  intros Hs. split; [|split].
  - intros items Hi. apply update_shopify_stock_accepts; [exact Hs|].
    left. cbn [py_get]. now rewrite Hi.
  - apply update_shopify_stock_accepts; [exact Hs|].
    right. eexists; eexists. split; [reflexivity|]. split; reflexivity.
  - intros first others msg Hm. unfold status_ok in Hs.
    unfold update_shopify_stock.
    cbn [bind emit lift app raise_for_status response_json]. rewrite Hs.
    cbn [bind app].
    set (result := JObj [("userErrors", JArr (first :: others))]).
    set (data := JObj [("inventorySetOnHandQuantities", result)]).
    change (py_get (stock_reply (JArr (first :: others))) "data" (JObj []))
      with (Ok data).
    cbn [bind app].
    change (py_get data "inventorySetOnHandQuantities" (JObj [])) with (Ok result).
    cbn [bind app].
    change (py_get result "userErrors" (JArr [])) with (Ok (JArr (first :: others))).
    cbn [bind app py_truthy py_getitem0 lift]. rewrite Hm. reflexivity.
Qed.

Lemma stock_answer_reading_witness :
  update_shopify_stock (JInt 11) (JStr "A") 3
    (Response 200 (Some (JObj [("errors", JArr [JStr "Throttled"])])))
  = ([PostStock (JInt 11) 3], Ok true).
Proof.
  apply (proj1 (stock_answer_reading (JInt 11) (JStr "A") 3 200 eq_refl)).
  reflexivity.
Defined.

Lemma stock_update_outcome_witness :
  update_shopify_stock (JInt 11) (JStr "A") 3 (Response 429 None)
  = ([PostStock (JInt 11) 3; Print (StockError (JStr "A"))], Ok false).
Proof.
  apply (proj1 (stock_update_outcome (JInt 11) (JStr "A") 3 (Response 429 None))).
  left. reflexivity.
Defined.

(* ===================================================================== *)
(** ** Further properties: the price update *)
(* ===================================================================== *)

(** The three ways the discount check of lines 200-216 ends. *)
Lemma has_discount_cases sku cur cmp :
  match has_discount sku cur cmp with
  | (t, Ok true) =>
      exists r c, t = [Print (HasDiscount sku r c)] /\
                  py_float cmp = Ok r /\ py_float cur = Ok c /\ fgt r c = true
  | (t, Ok false) => t = []
  | (t, Raise e) => t = []
  end.
Proof.
  destruct cmp; try reflexivity;
    try (unfold has_discount; destruct (py_truthy _); reflexivity).
  rewrite has_discount_text.
  destruct (forall_string isspace s); [reflexivity|].
  destruct (py_float (JStr s)) as [r | e]; [|reflexivity].
  destruct (py_float cur) as [c | []]; try reflexivity.
  destruct (fgt r c) eqn:Hg; [|reflexivity]. exists r, c. tauto.
Qed.

(** [update_shopify_price], step by step. *)
Lemma update_shopify_price_eq vid sku pp cur cmp resp :
  update_shopify_price vid sku pp cur cmp resp =
  match has_discount sku cur cmp with
  | (td, Ok true) => (td, Ok false)
  | (td, Raise e) => (td, Raise e)
  | (td, Ok false) =>
      match price_to_set sku pp cur with
      | (tp, Raise e) => (td ++ tp, Raise e)
      | (tp, Ok None) => (td ++ tp, Ok false)
      | (tp, Ok (Some (c, target))) =>
          match raise_for_status resp with
          | Ok _ =>
              (td ++ tp ++ [PutPrice vid target; Print (PriceUpdated sku c target pp)],
               Ok true)
          | Raise _ =>
              (td ++ tp ++ [PutPrice vid target; Print (PriceError sku)], Ok false)
          end
      end
  end.
Proof.
  unfold update_shopify_price.
  destruct (has_discount sku cur cmp) as [td [[|] | e]]; cbn [bind ret].
  - now rewrite app_nil_r.
  - destruct (price_to_set sku pp cur) as [tp [[[c target] |] | e]]; cbn [bind ret].
    + cbn [emit lift bind app].
      destruct (raise_for_status resp) as [[] | e] eqn:Hr; cbn [bind app print emit].
      * reflexivity.
      * apply raise_for_status_raises in Hr as ->. reflexivity.
    + now rewrite app_nil_r.
    + reflexivity.
  - reflexivity.
Qed.

(** X13.  A price request is only sent for the variant at hand, with the
    target computed from the POS price, when the current price was read as
    a number that is not above the target: the script never lowers a
    price.  The trace is then that one request and one line: the function
    returns [True] after the line of the update when the request did not
    fail, and [False] after the error line when it failed.  It returns
    [True] only if the request was sent. *)
Theorem price_request_only_raises vid sku pp cur cmp resp t r :
  update_shopify_price vid sku pp cur cmp resp = (t, r) ->
  (forall v p, In (PutPrice v p) t ->
     v = vid /\ target_price pp = Ok p /\
     exists c,
       py_float cur = Ok c /\ fgt_int c p = false /\
       ((t = [PutPrice vid p; Print (PriceUpdated sku c p pp)] /\ r = Ok true /\
         raise_for_status resp = Ok tt) \/
        (t = [PutPrice vid p; Print (PriceError sku)] /\ r = Ok false /\
         raise_for_status resp = Raise RequestException))) /\
  (r = Ok true -> exists p, In (PutPrice vid p) t).
Proof.
  rewrite update_shopify_price_eq.
  pose proof (has_discount_cases sku cur cmp) as Hd.
  destruct (has_discount sku cur cmp) as [td [[|] | e]].
  - destruct Hd as (r0 & c0 & -> & _). intros [= <- <-].
    split; [|discriminate]. intros v p [H | []]. discriminate H.
  - subst td. rewrite price_to_set_eq.
    destruct (target_price pp) as [target | e] eqn:Ht.
    2:{ intros [= <- <-]. split; [intros v p [] | discriminate]. }
    destruct (py_float cur) as [c | e] eqn:Hc.
    2:{ destruct e; intros [= <- <-]; (split; [|discriminate]);
          intros v p H; cbn in H; try destruct H as [H | []]; try discriminate H;
          destruct H. }
    destruct (float_of_int target) as [ft | e].
    2:{ intros [= <- <-]. split; [intros v p [] | discriminate]. }
    destruct (fle (fabs (fsub c ft)) c0_01) eqn:Hle; cbn [orb].
    { intros [= <- <-]. split; [|discriminate].
      intros v p [H | []]. discriminate H. }
    destruct (fgt_int c target) eqn:Hgt.
    { intros [= <- <-]. split; [|discriminate].
      intros v p [H | []]. discriminate H. }
    destruct (raise_for_status resp) as [[] | e] eqn:Hr; cbn [app]; intros [= <- <-].
    + split; [|intros _; exists target; now left].
      intros v p [[= <- <-] | [H | []]]; [|discriminate H].
      split; [reflexivity|]. split; [reflexivity|]. exists c. tauto.
    + apply raise_for_status_raises in Hr as ->. split; [|discriminate].
      intros v p [[= <- <-] | [H | []]]; [|discriminate H].
      split; [reflexivity|]. split; [reflexivity|]. exists c. tauto.
  - subst td. intros [= <- <-]. split; [intros v p [] | discriminate].
Qed.

Lemma price_request_only_raises_witness :
  let t := [PutPrice (JInt 21) 115;
            Print (PriceUpdated (JStr "A") (Fin (100 * one)) 115 (Fin (100 * one)))] in
  update_shopify_price (JInt 21) (JStr "A") (Fin (100 * one)) (JStr "100.00") JNull
    (ok_json JNull) = (t, Ok true) /\
  target_price (Fin (100 * one)) = Ok 115.
Proof.
  cbv zeta.
  assert (H : update_shopify_price (JInt 21) (JStr "A") (Fin (100 * one))
                (JStr "100.00") JNull (ok_json JNull)
              = ([PutPrice (JInt 21) 115;
                  Print (PriceUpdated (JStr "A") (Fin (100 * one)) 115 (Fin (100 * one)))],
                 Ok true))
    by (vm_compute; reflexivity).
  split; [exact H|].
  exact (proj1 (proj2 (proj1 (price_request_only_raises _ _ _ _ _ _ _ _ H)
                         (JInt 21) 115 (or_introl eq_refl)))).
Defined.

(** X14.  A reference price that is neither absent nor a string (a JSON
    number, [true], a non-empty list or object) makes [update_shopify_price]
    raise [AttributeError] at line 204, before anything is printed or
    sent: [.strip()] exists on strings only. *)
Theorem reference_price_not_a_string vid sku pp cur cmp resp :
  py_truthy cmp = true -> (forall s, cmp <> JStr s) ->
  update_shopify_price vid sku pp cur cmp resp = ([], Raise AttributeError).
Proof.
  intros Ht Hs. unfold update_shopify_price, has_discount. rewrite Ht.
  destruct cmp; try reflexivity. now destruct (Hs s).
Qed.

Lemma reference_price_not_a_string_witness :
  update_shopify_price (JInt 21) (JStr "A") (Fin (100 * one)) (JStr "100.00")
    (JInt 150) (ok_json JNull) = ([], Raise AttributeError).
Proof.
  apply reference_price_not_a_string; [reflexivity | intros s H; discriminate H].
Defined.

Lemma fmul_NaN y : fmul NaN y = NaN.
Proof. now destruct y. Qed.

Lemma markup_value : c1_15 = Fin (units c1_15) /\ 0 < units c1_15.
Proof. split; vm_compute; reflexivity. Qed.

(** X15.  The target price exists exactly when the marked-up POS price is
    finite.  When [pos_price * 1.15] is an infinity (a POS price that is
    infinite, or too large) [int()] raises [OverflowError], when it is a NaN
    (a POS price "nan", which [float()] accepts) it raises [ValueError];
    lines 219-222 stand outside every [try], so with no discount found
    [update_shopify_price] ends with that exception, nothing printed and
    nothing sent. *)
Theorem target_price_not_finite pp :
  (forall m, fmul pp c1_15 = Fin m -> exists target, target_price pp = Ok target) /\
  (forall s, fmul pp c1_15 = Inf s -> target_price pp = Raise OverflowError) /\
  (fmul pp c1_15 = NaN -> target_price pp = Raise ValueError) /\
  (pp = NaN -> fmul pp c1_15 = NaN) /\
  (forall s, pp = Inf s -> fmul pp c1_15 = Inf s) /\
  (forall vid sku cur cmp resp e,
     target_price pp = Raise e -> has_discount sku cur cmp = ([], Ok false) ->
     update_shopify_price vid sku pp cur cmp resp = ([], Raise e)).
Proof.
  split; [|split; [|split; [|split; [|split]]]].
  - intros m Hm. destruct (target_price_ok pp m Hm) as (target & _ & Ht & _). eauto.
  - intros s Hs. unfold target_price. now rewrite Hs.
  - intros Hn. unfold target_price. now rewrite Hn.
  - intros ->. apply fmul_NaN.
  - intros s ->. destruct markup_value as [E Hk]. rewrite E. cbn [fmul].
    destruct (Z.eqb_spec (units c1_15) 0) as [H0 | _]; [lia|].
    destruct (Z.ltb_spec (units c1_15) 0) as [H0 | _]; [lia|].
    now rewrite xorb_false_r.
  - intros vid sku cur cmp resp e He Hd.
    rewrite update_shopify_price_eq, Hd, price_to_set_eq, He. reflexivity.
Qed.

Lemma target_price_not_finite_witness :
  update_shopify_price (JInt 21) (JStr "A") NaN (JStr "100.00") JNull (ok_json JNull)
  = ([], Raise ValueError).
Proof.
  apply (proj2 (proj2 (proj2 (proj2 (proj2 (target_price_not_finite NaN)))))).
  - apply (proj1 (proj2 (proj2 (target_price_not_finite NaN)))).
    apply fmul_NaN.
  - reflexivity.
Defined.

(* ===================================================================== *)
(** ** Further properties: the loop of [main] *)
(* ===================================================================== *)

(** One turn of the loop of lines 283-304. *)
Lemma sync_loop_cons w i it rest (m : gmap string pos_entry) :
  sync_loop w i (it :: rest) m =
  match m !! sanitize_sku (sku it) with
  | None =>
      let '(tr, r) := sync_loop w (S i) rest m in
      (Print (NoMatch (sku it)) :: Sleep :: tr, r)
  | Some pos_data =>
      match update_shopify_stock (inventory_item_id it) (sku it) (quantity pos_data)
              (stock_response w i) with
      | (ts, Raise e) => (ts, Raise e)
      | (ts, Ok synced) =>
          let line :=
            if synced then [Print (StockSynced (sku it) (quantity pos_data))] else [] in
          match update_shopify_price (variant_id it) (sku it) (price pos_data)
                  (current_price it) (compare_at_price it) (price_response w i) with
          | (tp, Raise e) => (ts ++ line ++ Sleep :: tp, Raise e)
          | (tp, Ok _) =>
              let '(tr, r) := sync_loop w (S i) rest m in
              (ts ++ line ++ Sleep :: tp ++ Sleep :: tr, r)
          end
      end
  end.
Proof.
  cbn [sync_loop]. destruct (m !! sanitize_sku (sku it)) as [pos_data |].
  - destruct (update_shopify_stock _ _ _ _) as [ts [synced | e]]; cbn [bind];
      [|reflexivity].
    destruct (update_shopify_price _ _ _ _ _ _) as [tp [b | e]];
      destruct synced; cbn [print emit ret bind app];
      try destruct (sync_loop w (S i) rest m) as [tr r];
      rewrite <- ?app_assoc; cbn [app]; rewrite <- ?app_assoc; cbn [app];
      rewrite ?app_nil_r; reflexivity.
  - cbn [print emit bind app]. destruct (sync_loop w (S i) rest m) as [tr r].
    reflexivity.
Qed.

Lemma count_app p t1 t2 : count p (t1 ++ t2) = (count p t1 + count p t2)%nat.
Proof. unfold count. now rewrite List.filter_app, length_app. Qed.

Lemma count_cons p e t :
  count p (e :: t) = ((if p e then 1 else 0) + count p t)%nat.
Proof. unfold count. cbn [List.filter]. now destruct (p e). Qed.

Lemma count_none p q t :
  forallb q t = true -> (forall e, q e = true -> p e = false) -> count p t = 0%nat.
Proof.
  intros Hq Hp. induction t as [| e t IH]; [reflexivity|].
  cbn [forallb] in Hq. apply andb_true_iff in Hq as [He Ht].
  unfold count in *. cbn [List.filter]. rewrite (Hp e He). now apply IH.
Qed.

Lemma update_shopify_stock_events iid sku q resp :
  exists t', fst (update_shopify_stock iid sku q resp) = PostStock iid q :: t' /\
             forallb is_update_event t' = true /\ count is_post_stock t' = 0%nat /\
             count is_put_price t' = 0%nat.
Proof.
  pose proof (update_shopify_stock_cases iid sku q resp) as Hc.
  destruct (update_shopify_stock iid sku q resp) as [t [[|] | e]]; cbn [fst].
  - destruct Hc as [-> _]. exists []. repeat split.
  - destruct Hc as [[-> _] | (msg & -> & _)]; eexists; repeat split.
  - destruct Hc as (-> & _). exists []. repeat split.
Qed.

Lemma update_shopify_price_events vid sku pp cur cmp resp :
  forallb is_update_event (fst (update_shopify_price vid sku pp cur cmp resp)) = true /\
  count is_post_stock (fst (update_shopify_price vid sku pp cur cmp resp)) = 0%nat /\
  (count is_put_price (fst (update_shopify_price vid sku pp cur cmp resp)) <= 1)%nat.
Proof.
  rewrite update_shopify_price_eq.
  pose proof (has_discount_cases sku cur cmp) as Hd.
  destruct (has_discount sku cur cmp) as [td [[|] | e]].
  - destruct Hd as (r0 & c0 & -> & _). cbn. repeat split; lia.
  - subst td. rewrite price_to_set_eq.
    destruct (target_price pp) as [target | e]; [|cbn; repeat split; lia].
    destruct (py_float cur) as [c | []]; try (cbn; repeat split; lia).
    destruct (float_of_int target) as [ft | e]; [|cbn; repeat split; lia].
    destruct (_ || _); [cbn; repeat split; lia|].
    destruct (raise_for_status resp) as [[] | e]; cbn; repeat split; lia.
  - subst td. cbn. repeat split; lia.
Qed.

(** X16.  A run of the loop of [main] that comes to its end has sent one
    stock request for each variant that has an entry in the POS map and
    none for the others, for which it printed the no-match line; it has
    sent at most one price request per matched variant, and it has slept
    once per variant and once more per matched variant. *)
Theorem sync_loop_counts w items (m : gmap string pos_entry) : forall i t,
  sync_loop w i items m = (t, Ok tt) ->
  count is_post_stock t = length (List.filter (matched m) items) /\
  count is_no_match t = length (List.filter (fun it => negb (matched m it)) items) /\
  count is_sleep t = (length items + length (List.filter (matched m) items))%nat /\
  (count is_put_price t <= length (List.filter (matched m) items))%nat.
Proof.
  induction items as [| it rest IH]; intros i t H.
  - injection H as <-. repeat split. reflexivity.
  - rewrite sync_loop_cons in H. cbn [List.filter length].
    destruct (m !! sanitize_sku (sku it)) as [pos_data |] eqn:Hm.
    + assert (Hmt : matched m it = true)
        by (unfold matched; rewrite Hm; apply bool_decide_eq_true_2; eauto).
      rewrite Hmt. cbn [negb length].
      destruct (update_shopify_stock_events (inventory_item_id it) (sku it)
                  (quantity pos_data) (stock_response w i))
        as (ts' & Es & Hs1 & Hs2 & Hs3).
      destruct (update_shopify_stock _ _ _ _) as [ts [synced | e]]; [|discriminate H].
      cbn [fst] in Es. subst ts.
      pose proof (update_shopify_price_events (variant_id it) (sku it) (price pos_data)
                    (current_price it) (compare_at_price it) (price_response w i))
        as (Hp1 & Hp2 & Hp3).
      destruct (update_shopify_price _ _ _ _ _ _) as [tp [b | e]]; [|discriminate H].
      cbn [fst] in Hp1, Hp2, Hp3.
      destruct (sync_loop w (S i) rest m) as [tr r] eqn:Hr.
      injection H as <- ->.
      destruct (IH _ _ Hr) as (I1 & I2 & I3 & I4).
      assert (Hl : forall p, (forall s q, p (Print (StockSynced s q)) = false) ->
                count p (if synced
                         then [Print (StockSynced (sku it) (quantity pos_data))]
                         else []) = 0%nat).
      { intros p Hp. destruct synced; [|reflexivity].
        unfold count. cbn [List.filter]. now rewrite Hp. }
      assert (U1 : count is_no_match ts' = 0%nat)
        by (apply (count_none _ _ _ Hs1); now intros [[] | | | | |]).
      assert (U2 : count is_sleep ts' = 0%nat)
        by (apply (count_none _ _ _ Hs1); now intros [[] | | | | |]).
      assert (U3 : count is_no_match tp = 0%nat)
        by (apply (count_none _ _ _ Hp1); now intros [[] | | | | |]).
      assert (U4 : count is_sleep tp = 0%nat)
        by (apply (count_none _ _ _ Hp1); now intros [[] | | | | |]).
      cbn [app]. repeat (rewrite count_cons || rewrite count_app).
      rewrite !Hl by (intros; reflexivity).
      rewrite Hs2, Hs3, Hp2, U1, U2, U3, U4, I1, I2, I3.
      cbn [is_post_stock is_no_match is_sleep is_put_price].
      repeat split; lia.
    + assert (Hmt : matched m it = false).
      { unfold matched. rewrite Hm. apply bool_decide_eq_false_2.
        intros [x Hx]. discriminate Hx. }
      rewrite Hmt. cbn [negb length].
      destruct (sync_loop w (S i) rest m) as [tr r] eqn:Hr.
      injection H as <- ->.
      destruct (IH _ _ Hr) as (I1 & I2 & I3 & I4).
      rewrite !count_cons, I1, I2, I3.
      cbn [is_post_stock is_no_match is_sleep is_put_price].
      repeat split; lia.
Qed.

Lemma sync_loop_counts_witness :
  let t := [PostStock (JInt 11) 3; Print (StockSynced (JStr "A") 3); Sleep;
            Print (HasDiscount (JStr "A") (Fin (120 * one)) (Fin (100 * one))); Sleep;
            Print (NoMatch (JStr "Z")); Sleep] in
  sync_loop (world_with stock_accepted) 0 [variant_discounted; variant_z] map_a
    = (t, Ok tt) /\
  count is_post_stock t = 1%nat /\ count is_no_match t = 1%nat /\
  count is_sleep t = 3%nat /\ (count is_put_price t <= 1)%nat.
Proof.
  cbv zeta.
  assert (H : sync_loop (world_with stock_accepted) 0 [variant_discounted; variant_z] map_a
              = ([PostStock (JInt 11) 3; Print (StockSynced (JStr "A") 3); Sleep;
                  Print (HasDiscount (JStr "A") (Fin (120 * one)) (Fin (100 * one)));
                  Sleep; Print (NoMatch (JStr "Z")); Sleep], Ok tt))
    by (vm_compute; reflexivity).
  split; [exact H|].
  exact (sync_loop_counts _ _ _ _ _ H).
Defined.

Lemma update_event_phase e : is_update_event e = true -> in_phase 3 e = true.
Proof. destruct e as [[] | | | | |]; cbn; congruence. Qed.

Lemma forallb_impl {A} (p q : A -> bool) l :
  (forall x, p x = true -> q x = true) -> forallb p l = true -> forallb q l = true.
Proof.
  intros Hpq. induction l as [| x l IH]; [reflexivity|]. cbn [forallb].
  intros H. apply andb_true_iff in H as [Hx Hl]. now rewrite (Hpq x Hx), IH.
Qed.

Lemma sync_loop_phase w items (m : gmap string pos_entry) : forall i,
  forallb (in_phase 3) (fst (sync_loop w i items m)) = true.
Proof.
  induction items as [| it rest IH]; intros i; [reflexivity|].
  rewrite sync_loop_cons. specialize (IH (S i)).
  destruct (m !! sanitize_sku (sku it)) as [pos_data |].
  - destruct (update_shopify_stock_events (inventory_item_id it) (sku it)
                (quantity pos_data) (stock_response w i)) as (ts' & Es & Hs & _).
    apply (forallb_impl _ _ _ update_event_phase) in Hs.
    destruct (update_shopify_stock _ _ _ _) as [ts [synced | e]];
      cbn [fst] in Es; subst ts.
    2:{ cbn [fst forallb]. now rewrite Hs. }
    pose proof (update_shopify_price_events (variant_id it) (sku it) (price pos_data)
                  (current_price it) (compare_at_price it) (price_response w i))
      as (Hp & _).
    apply (forallb_impl _ _ _ update_event_phase) in Hp.
    assert (Hline : forallb (in_phase 3)
              (if synced then [Print (StockSynced (sku it) (quantity pos_data))]
               else []) = true) by now destruct synced.
    destruct (update_shopify_price _ _ _ _ _ _) as [tp [b | e]]; cbn [fst] in Hp.
    + destruct (sync_loop w (S i) rest m) as [tr r]. cbn [fst] in *.
      cbn [forallb app]. rewrite !forallb_app. cbn [forallb].
      rewrite !forallb_app. cbn [forallb]. now rewrite Hs, Hline, Hp, IH.
    + cbn [fst forallb app]. rewrite !forallb_app. cbn [forallb].
      now rewrite Hs, Hline, Hp.
  - destruct (sync_loop w (S i) rest m) as [tr r]. cbn [fst] in *.
    cbn [forallb]. now rewrite IH.
Qed.

Lemma listing_event_phase e : is_listing_event e = true -> in_phase 1 e = true.
Proof. destruct e as [[] | | | | |]; cbn; congruence. Qed.

Lemma get_all_pos_inventory_phase w :
  forallb (in_phase 2) (fst (get_all_pos_inventory w)) = true.
Proof.
  rewrite get_all_pos_inventory_cases.
  destruct (raise_for_status (pos w)) as [[] | e1]; [|reflexivity].
  destruct (response_json (pos w)) as [pos_data | []]; cbn [obind]; try reflexivity.
  destruct (py_iter pos_data) as [items | []]; cbn [obind]; try reflexivity.
  destruct (pos_loop items ∅) as [m | []]; reflexivity.
Qed.

(** X17.  With the configuration present, a run of [main] has three parts
    in this order, whatever the answers and however it ends: the pages of
    the storefront listing, then the POS export, then the loop over the
    variants.  So no stock or price request is sent before both snapshots
    are complete, and no snapshot is requested after the first update. *)
Theorem main_phase_order w :
  filter (unset w) required_vars = [] ->
  exists t1 t2 t3,
    fst (main w) = t1 ++ t2 ++ t3 /\
    forallb (in_phase 1) t1 = true /\ forallb (in_phase 2) t2 = true /\
    forallb (in_phase 3) t3 = true.
Proof.
  intros Hv. unfold main. rewrite Hv. unfold get_shopify_skus.
  pose proof (pages_loop_trace (products w) []) as H1.
  apply (forallb_impl _ _ _ listing_event_phase) in H1.
  destruct (pages_loop (products w) []) as [t1 [skus | e]]; cbn [fst bind] in *.
  2:{ exists t1, [], []. rewrite !app_nil_r. tauto. }
  destruct (no_skus skus).
  { exists (t1 ++ [Print NoShopifySkus]), [], []. rewrite !app_nil_r.
    split; [reflexivity|]. rewrite forallb_app, H1. tauto. }
  pose proof (get_all_pos_inventory_phase w) as H2.
  destruct (get_all_pos_inventory w) as [t2 [inv | e]]; cbn [fst bind] in *.
  2:{ exists t1, t2, []. rewrite !app_nil_r. tauto. }
  destruct (no_inventory inv).
  { exists t1, (t2 ++ [Print NoPosInventory]), []. rewrite !app_nil_r.
    split; [reflexivity|]. rewrite forallb_app, H2. tauto. }
  cbn [print emit bind].
  pose proof (sync_loop_phase w (default [] skus) (default ∅ inv) 0) as H3.
  destruct (sync_loop w 0 (default [] skus) (default ∅ inv)) as [t3 r].
  cbn [fst app] in *.
  exists t1, t2, (Print (Comparing (length (default [] skus)) (size (default ∅ inv))) :: t3).
  cbn [forallb]. rewrite H3. tauto.
Qed.

Lemma main_phase_order_witness :
  exists t1 t2 t3,
    fst (main (world_with stock_null_data)) = t1 ++ t2 ++ t3 /\
    forallb (in_phase 1) t1 = true /\ forallb (in_phase 2) t2 = true /\
    forallb (in_phase 3) t3 = true.
Proof. apply main_phase_order. reflexivity. Defined.

(** X20.  An exception of the price update ends the loop of [main] at
    once, as one of the stock update does: after the stock update of a
    matched variant has returned, when [update_shopify_price] raises, the
    loop ends with that exception after the events of this variant, and
    the variants that follow are not processed. *)
Theorem price_failure_aborts_loop w i it rest (m : gmap string pos_entry)
    pos_data ts synced tp e :
  m !! sanitize_sku (sku it) = Some pos_data ->
  update_shopify_stock (inventory_item_id it) (sku it) (quantity pos_data)
    (stock_response w i) = (ts, Ok synced) ->
  update_shopify_price (variant_id it) (sku it) (price pos_data)
    (current_price it) (compare_at_price it) (price_response w i) = (tp, Raise e) ->
  sync_loop w i (it :: rest) m =
    (ts ++ (if synced then [Print (StockSynced (sku it) (quantity pos_data))] else [])
        ++ Sleep :: tp, Raise e).
Proof.
  intros Hm Hs Hp. now rewrite sync_loop_cons, Hm, Hs, Hp.
Qed.

Lemma price_failure_aborts_loop_witness :
  sync_loop (world_with stock_accepted) 0 [variant_numeric_reference; variant_z] map_a
  = ([PostStock (JInt 11) 3; Print (StockSynced (JStr "A") 3); Sleep],
     Raise AttributeError).
Proof.
  exact (price_failure_aborts_loop (world_with stock_accepted) 0
           variant_numeric_reference [variant_z] map_a
           (PosEntry 3 (Fin (100 * one))) [PostStock (JInt 11) 3] true []
           AttributeError eq_refl eq_refl eq_refl).
Defined.

(* ===================================================================== *)
(** ** Further properties: the [Link] header *)
(* ===================================================================== *)

Lemma str_contains_cons sub c r :
  str_contains sub (String c r) = String.prefix sub (String c r) || str_contains sub r.
Proof.
  unfold str_contains. cbn [String.index].
  destruct (String.prefix sub (String c r)); [reflexivity|].
  now destruct (String.index 0 sub r).
Qed.

Lemma prefix_contains sub s : String.prefix sub s = true -> str_contains sub s = true.
Proof.
  destruct s as [| c r].
  - destruct sub; [reflexivity | discriminate].
  - intros H. now rewrite str_contains_cons, H.
Qed.

Lemma append_nil s : "" +:+ s = s.
Proof. reflexivity. Qed.

Lemma append_cons c a b : String c a +:+ b = String c (a +:+ b).
Proof. reflexivity. Qed.

Lemma append_empty_r s : s +:+ "" = s.
Proof. induction s as [| c s IH]; [reflexivity|]. now rewrite append_cons, IH. Qed.

Lemma prefix_append sub s : String.prefix sub (sub +:+ s) = true.
Proof.
  induction sub as [| a sub IH]; [now destruct s|].
  rewrite append_cons. cbn [String.prefix].
  destruct (ascii_dec a a) as [_ | n]; [exact IH | now destruct n].
Qed.

Lemma str_contains_append a sub b : str_contains sub (a +:+ sub +:+ b) = true.
Proof.
  induction a as [| c a IH].
  - rewrite append_nil. apply prefix_contains, prefix_append.
  - rewrite append_cons, str_contains_cons, IH. apply orb_true_r.
Qed.

Lemma split_char_cons sep s : exists p ps, split_char sep s = p :: ps.
Proof.
  destruct s as [| c r]; cbn [split_char]; [eauto|].
  destruct (Ascii.eqb c sep); [eauto|]. destruct (split_char sep r); eauto.
Qed.

Lemma split_char_prefix sep sub : forall s,
  no_char sep sub = true -> String.prefix sub s = true ->
  exists p ps, split_char sep s = p :: ps /\ String.prefix sub p = true.
Proof.
  induction sub as [| a sub IH]; intros s Hn Hp.
  - destruct (split_char_cons sep s) as (p & ps & E). exists p, ps.
    split; [exact E | now destruct p].
  - destruct s as [| c r]; [discriminate Hp|]. cbn [String.prefix] in Hp.
    destruct (ascii_dec a c) as [<- | ne]; [|discriminate Hp].
    cbn [no_char forall_string] in Hn. apply andb_true_iff in Hn as [Ha Hn].
    destruct (IH r Hn Hp) as (p & ps & E & Hp').
    cbn [split_char]. destruct (Ascii.eqb a sep); [discriminate Ha|].
    rewrite E. exists (String a p), ps. split; [reflexivity|].
    cbn [String.prefix]. destruct (ascii_dec a a) as [_ | n]; [exact Hp' | now destruct n].
Qed.

Lemma split_char_contains sep sub : forall s,
  sub <> "" -> no_char sep sub = true -> str_contains sub s = true ->
  existsb (str_contains sub) (split_char sep s) = true.
Proof.
  intros s Hne Hn. induction s as [| c r IH]; intros Hc.
  - destruct sub; [now destruct Hne | discriminate Hc].
  - rewrite str_contains_cons in Hc. apply orb_true_iff in Hc as [Hp | Hc].
    + destruct (split_char_prefix sep sub _ Hn Hp) as (p & ps & -> & Hp').
      cbn [existsb]. now rewrite (prefix_contains _ _ Hp').
    + specialize (IH Hc). cbn [split_char].
      destruct (Ascii.eqb c sep); [cbn [existsb]; rewrite IH; apply orb_true_r|].
      destruct (split_char sep r) as [| p ps]; [discriminate IH|].
      cbn [existsb] in *. apply orb_true_iff in IH as [H | H].
      * now rewrite str_contains_cons, H, orb_true_r.
      * rewrite H. apply orb_true_r.
Qed.

Lemma filter_existsb {A} (f : A -> bool) l :
  existsb f l = true -> exists x xs, List.filter f l = x :: xs /\ f x = true.
Proof.
  induction l as [| a l IH]; [discriminate|]. cbn [existsb List.filter].
  destruct (f a) eqn:Ha; [eauto|]. exact IH.
Qed.

Lemma no_char_rel_next : no_char "," rel_next = true /\ rel_next <> "".
Proof. split; [reflexivity | discriminate]. Qed.

Lemma str_contains_append_r sub a b :
  str_contains sub b = true -> str_contains sub (a +:+ b) = true.
Proof.
  intros H. induction a as [| c a IH]; [exact H|].
  rewrite append_cons, str_contains_cons, IH. apply orb_true_r.
Qed.

Lemma str_contains_empty sub : sub <> "" -> str_contains sub "" = false.
Proof. destruct sub; [now intros H; destruct H | reflexivity]. Qed.

(** X18.  The next URL exists exactly when the [Link] header contains the
    text [rel="next"]: without a header, or with a header that has not this
    text, [url] is [None] and the loop ends; with one, some part of the
    header between commas contains the text, so the list of line 76 is not
    empty and line 80 is never reached. *)
Theorem next_url_found :
  next_url None = None /\
  (forall h, str_contains rel_next h = false -> next_url (Some h) = None) /\
  (forall h, str_contains rel_next h = true ->
     exists p ps,
       List.filter (str_contains rel_next) (split_char "," h) = p :: ps /\
       next_url (Some h) = Some (strip_chars "<> " (hd "" (split_char ";" p)))).
Proof.
  split; [reflexivity|]. split.
  - intros h H. unfold next_url. rewrite H. now rewrite andb_false_r.
  - intros h H. unfold next_url. rewrite H.
    assert (Hne : bool_decide (h = "") = false).
    { apply bool_decide_eq_false. intros ->.
      rewrite str_contains_empty in H by discriminate. discriminate H. }
    rewrite Hne. cbn [negb andb].
    destruct no_char_rel_next as [Hn Hr].
    destruct (filter_existsb _ _ (split_char_contains "," rel_next h Hr Hn H))
      as (p & ps & E & _).
    rewrite E. eauto.
Qed.

Lemma no_char_append sep a b :
  no_char sep (a +:+ b) = no_char sep a && no_char sep b.
Proof.
  unfold no_char. induction a as [| c a IH]; [reflexivity|].
  rewrite append_cons. cbn [forall_string]. now rewrite IH, andb_assoc.
Qed.

Lemma split_char_none sep s : no_char sep s = true -> split_char sep s = [s].
Proof.
  induction s as [| c r IH]; [reflexivity|]. cbn [no_char forall_string split_char].
  intros H. apply andb_true_iff in H as [Hc Hr].
  destruct (Ascii.eqb c sep); [discriminate Hc|]. now rewrite (IH Hr).
Qed.

Lemma split_char_append sep a s :
  no_char sep a = true ->
  split_char sep (a +:+ s) =
  (a +:+ hd "" (split_char sep s)) :: tl (split_char sep s).
Proof.
  intros H. induction a as [| c a IH].
  - rewrite append_nil. destruct (split_char_cons sep s) as (p & ps & ->). reflexivity.
  - cbn [no_char forall_string] in H. apply andb_true_iff in H as [Hc Ha].
    rewrite append_cons. cbn [split_char].
    destruct (Ascii.eqb c sep); [discriminate Hc|]. now rewrite (IH Ha).
Qed.

Lemma list_ascii_append a b :
  list_ascii_of_string (a +:+ b) = list_ascii_of_string a ++ list_ascii_of_string b.
Proof.
  induction a as [| c a IH]; [reflexivity|].
  rewrite append_cons. cbn [list_ascii_of_string app]. now rewrite IH.
Qed.

Lemma lstrip_chars_pad chars pre l :
  forallb (char_in chars) pre = true ->
  lstrip_chars chars (pre ++ l) = lstrip_chars chars l.
Proof.
  induction pre as [| c pre IH]; [reflexivity|]. cbn [forallb app lstrip_chars].
  intros H. apply andb_true_iff in H as [-> H]. now apply IH.
Qed.

Lemma lstrip_chars_app chars l post :
  forallb (char_in chars) post = true ->
  lstrip_chars chars (l ++ post) =
  match lstrip_chars chars l with
  | [] => []
  | x => x ++ post
  end.
Proof.
  intros H. induction l as [| c l IH]; cbn [app lstrip_chars].
  - rewrite <- (app_nil_r post) at 1. rewrite lstrip_chars_pad by exact H. reflexivity.
  - destruct (char_in chars c); [exact IH | reflexivity].
Qed.

Lemma strip_chars_pad chars pre u post :
  forall_string (char_in chars) pre = true ->
  forall_string (char_in chars) post = true ->
  strip_chars chars (pre +:+ u +:+ post) = strip_chars chars u.
Proof.
  assert (F : forall s, forall_string (char_in chars) s = true ->
                forallb (char_in chars) (list_ascii_of_string s) = true).
  { induction s as [| c s IH]; [reflexivity|]. cbn [forall_string forallb
      list_ascii_of_string]. intros H. apply andb_true_iff in H as [-> H].
    now apply IH. }
  intros Hpre Hpost. apply F in Hpre, Hpost. unfold strip_chars. f_equal.
  rewrite !list_ascii_append, lstrip_chars_pad by exact Hpre.
  rewrite lstrip_chars_app by exact Hpost.
  destruct (lstrip_chars chars (list_ascii_of_string u)) as [| x l]; [reflexivity|].
  rewrite rev_app_distr, lstrip_chars_pad; [reflexivity|].
  rewrite forallb_forall in *. intros c Hc. apply Hpost. now apply in_rev.
Qed.

Lemma next_link_parts pad url :
  forall_string (char_in "<> ") pad = true ->
  no_char "," pad = true -> no_char ";" pad = true ->
  no_char "," url = true -> no_char ";" url = true ->
  split_char "," (next_link pad url) = [next_link pad url] /\
  str_contains rel_next (next_link pad url) = true /\
  strip_chars "<> " (hd "" (split_char ";" (next_link pad url)))
    = strip_chars "<> " url.
Proof.
  intros Hpad Hp1 Hp2 Hu1 Hu2. unfold next_link. split; [|split].
  - apply split_char_none. rewrite !no_char_append, Hp1, Hu1. reflexivity.
  - do 3 apply str_contains_append_r. reflexivity.
  - rewrite (split_char_append ";" pad) by exact Hp2. cbn [hd].
    rewrite (split_char_append ";" "<") by reflexivity. cbn [hd].
    rewrite (split_char_append ";" url) by exact Hu2. cbn [hd].
    change (hd "" (split_char ";" (">; " +:+ rel_next))) with ">".
    replace (pad +:+ "<" +:+ url +:+ ">") with ((pad +:+ "<") +:+ url +:+ ">").
    + apply strip_chars_pad; [|reflexivity].
      clear -Hpad. induction pad as [| c pad IH]; [reflexivity|].
      cbn [forall_string] in Hpad. apply andb_true_iff in Hpad as [Hc Hpad].
      rewrite append_cons. cbn [forall_string]. now rewrite Hc, IH.
    + clear. induction pad as [| c pad IH]; [reflexivity|].
      rewrite !append_cons. now rewrite IH.
Qed.

Lemma strip_chars_all chars s :
  forall_string (char_in chars) s = true -> strip_chars chars s = "".
Proof.
  intros H. rewrite <- (append_empty_r s).
  change (s +:+ "") with (s +:+ "" +:+ ""). now rewrite strip_chars_pad.
Qed.

(** X19.  Reading a header back.  For a URL without comma or semicolon,
    the header [<URL>; rel="next"] gives the URL, and so does a header where
    this link follows others that have not the text [rel="next"] (as the
    link [rel="previous"] of a page in the middle); characters "<", ">" and
    space at the ends of the URL are lost, and a URL made of these
    characters only ends the loop as a missing header does. *)
Theorem next_url_reads_link url :
  no_char "," url = true -> no_char ";" url = true ->
  next_url (Some (next_link "" url)) = Some (strip_chars "<> " url) /\
  (forall others,
     no_char "," others = true -> str_contains rel_next others = false ->
     next_url (Some (others +:+ "," +:+ next_link " " url))
       = Some (strip_chars "<> " url)) /\
  (forall_string (char_in "<> ") url = true ->
   goes_on (next_url (Some (next_link "" url))) = false).
Proof.
  intros Hu1 Hu2.
  assert (H1 : next_url (Some (next_link "" url)) = Some (strip_chars "<> " url)).
  { destruct (next_link_parts "" url eq_refl eq_refl eq_refl Hu1 Hu2) as (Hs & Hc & Hh).
    unfold next_url. rewrite Hc, Hs. cbn [List.filter]. rewrite Hc, Hh.
    replace (bool_decide (next_link "" url = "")) with false; [reflexivity|].
    symmetry. apply bool_decide_eq_false. discriminate. }
  split; [exact H1|]. split.
  - intros others Ho1 Ho2.
    destruct (next_link_parts " " url eq_refl eq_refl eq_refl Hu1 Hu2)
      as (Hs & Hc & Hh).
    unfold next_url.
    replace (bool_decide (others +:+ "," +:+ next_link " " url = "")) with false.
    2:{ symmetry. apply bool_decide_eq_false. destruct others; discriminate. }
    rewrite (str_contains_append_r _ others), (split_char_append "," others)
      by (try exact Ho1; now apply str_contains_append_r).
    cbn [negb andb].
    change ("," +:+ next_link " " url) with (String "," (next_link " " url)).
    cbn [split_char Ascii.eqb Bool.eqb hd tl]. rewrite Hs.
    rewrite append_empty_r. cbn [List.filter]. rewrite Ho2, Hc, Hh. reflexivity.
  - intros Ha. rewrite H1, strip_chars_all by exact Ha. reflexivity.
Qed.
Lemma next_url_reads_link_witness :
  next_url (Some (next_link "" "https://shop.example/products.json?limit=250&page_info=abc"))
  = Some "https://shop.example/products.json?limit=250&page_info=abc".
Proof.
  exact (proj1 (next_url_reads_link
                  "https://shop.example/products.json?limit=250&page_info=abc"
                  eq_refl eq_refl)).
Defined.

(* ===================================================================== *)
(** ** The join on an identifier with a control character *)
(* ===================================================================== *)

Lemma sanitize_sku_changes s :
  forall_string isprintable s = false -> sanitize_sku (JStr s) <> s.
Proof.
  intros H E. cbn [sanitize_sku] in E.
  pose proof (filter_string_all isprintable s) as Hp.
  rewrite E in Hp. congruence.
Qed.

(** C1: the code at a failing input.  Line 108 stores a POS record under
    [str(item["ID"])], the raw identifier, while line 290 looks a
    storefront SKU up under [sanitize_sku] of it.  For every identifier
    with a character that is not printable the two differ: the record is
    in the map under the raw identifier, and the lookup of the identical
    storefront SKU finds nothing.  With "A<TAB>B" on both sides, [main]
    prints the no-match line for the variant and sends no update. *)
Lemma identical_identifier_finds_no_match :
  (forall s qua price m,
     forall_string isprintable s = false ->
     pos_loop [pos_record (JStr s) qua price] ∅ = Ok m ->
     is_Some (m !! s) /\ m !! sanitize_sku (JStr s) = None) /\
  sanitize_sku (JStr a_tab_b) = "AB" /\
  main tab_world =
    ([GetProducts; Print (ShopifyRetrieved 1); Print PosFetching; GetPos;
      Print (PosLoaded 1); Print (Comparing 1 1);
      Print (NoMatch (JStr a_tab_b)); Sleep], Ok tt).
Proof.
  split; [|split; vm_compute; reflexivity].
  intros s qua price m Hs H.
  apply pos_loop_inv in H as [[Hg _] | (key & e & Hr & H)].
  - discriminate Hg.
  - injection H as <-.
    destruct Hr as (_ & id & q0 & qf & pr & H1 & H2 & _).
    injection H1 as <-. injection H2 as <-. split.
    + rewrite lookup_insert_eq. eauto.
    + rewrite lookup_insert_ne by (apply not_eq_sym, sanitize_sku_changes, Hs).
      apply lookup_empty.
Qed.

(* ===================================================================== *)
(** ** The price target in binary floating point *)
(* ===================================================================== *)

(** C2: the code at two failing inputs.  The target is computed in binary64
    and not in decimals.  For the base price 31.30 the product with the
    float 1.15 is the float below 35.995, which [round(_, 2)] takes to
    35.99 where the decimal product 35.9950 rounds to 36.00: the target
    is 35 and not the 40 that the rounding policy gives for 36.00, and for
    the current price 30.00 the request sent carries 35.  For the base
    price 100.00 the target is 115; against the current price 114.99 the
    difference computed is above the float 0.01, although the decimals
    differ by 0.01 exactly: the price is updated and not skipped. *)
Lemma price_target_misses_decimal_target :
  py_float (JStr "31.30") = Ok (of_decimal 3130 (-2)) /\
  fmul (of_decimal 3130 (-2)) c1_15 = of_decimal 35995 (-3) /\
  units (of_decimal 35995 (-3)) * 1000 < 35995 * one /\
  py_round2 (of_decimal 35995 (-3)) = of_decimal 3599 (-2) /\
  target_price (of_decimal 3130 (-2)) = Ok 35 /\
  (3130 * 115 = 359950 /\ rne 359950 100 = 3600 /\
   round_to_5_or_10 (NFloat (of_decimal 3600 (-2))) = Ok 40) /\
  update_shopify_price (JInt 21) (JStr "A") (of_decimal 3130 (-2)) (JStr "30.00") JNull
    (ok_json JNull)
    = ([PutPrice (JInt 21) 35;
        Print (PriceUpdated (JStr "A") (of_decimal 30 0) 35 (of_decimal 3130 (-2)))],
       Ok true) /\
  target_price (of_decimal 100 0) = Ok 115 /\
  (Z.abs (11499 - 11500) <= 1 /\
   fle (fabs (fsub (of_decimal 11499 (-2)) (of_decimal 115 0))) c0_01 = false) /\
  update_shopify_price (JInt 21) (JStr "A") (of_decimal 100 0) (JStr "114.99") JNull
    (ok_json JNull)
    = ([PutPrice (JInt 21) 115;
        Print (PriceUpdated (JStr "A") (of_decimal 11499 (-2)) 115 (of_decimal 100 0))],
       Ok true).
Proof.
  split; [vm_compute; reflexivity|]. split; [vm_compute; reflexivity|].
  split; [vm_compute; reflexivity|]. split; [vm_compute; reflexivity|].
  split; [vm_compute; reflexivity|].
  split; [split; [reflexivity|]; split; vm_compute; reflexivity|].
  split; [vm_compute; reflexivity|]. split; [vm_compute; reflexivity|].
  split; [split; [vm_compute; discriminate | vm_compute; reflexivity]|].
  vm_compute; reflexivity.
Qed.

(* ===================================================================== *)
(** ** A current price that is not a decimal *)
(* ===================================================================== *)

Lemma target_price_finite pos_price target :
  target_price pos_price = Ok target ->
  exists t, float_of_int target = Ok (Fin t).
Proof.
  intros H.
  destruct (fmul pos_price c1_15) as [m | s |] eqn:Hm.
  - destruct (target_price_ok pos_price m Hm) as (target' & t & Ht & Hf).
    rewrite H in Ht. injection Ht as <-. exists t.
    unfold float_of_int. now rewrite Hf.
  - unfold target_price in H. rewrite Hm in H. discriminate H.
  - unfold target_price in H. rewrite Hm in H. discriminate H.
Qed.

(** C8: the code at failing inputs.  [float()] reads the texts "inf" and
    "nan", which are no decimals, so line 228 does not report them: for
    every base price that has a target, the current price "inf" gets the
    already-at-target line of a skip, and the current price "nan", for
    which both tests of line 233 are false, gets a price request.  A text
    that [float()] rejects gets the warning of line 228, and the function
    returns [False] as it does for a skip. *)
Lemma non_decimal_price_passes_the_parse :
  (forall sku pos_price target,
     target_price pos_price = Ok target ->
     price_to_set sku pos_price (JStr "inf")
       = ([Print (AlreadyAtTarget sku (Inf false))], Ok None) /\
     price_to_set sku pos_price (JStr "nan") = ([], Ok (Some (NaN, target)))) /\
  update_shopify_price (JInt 21) (JStr "A") (of_decimal 100 0) (JStr "nan") JNull
    (ok_json JNull)
    = ([PutPrice (JInt 21) 115;
        Print (PriceUpdated (JStr "A") NaN 115 (of_decimal 100 0))], Ok true) /\
  update_shopify_price (JInt 21) (JStr "A") (of_decimal 100 0) (JStr "inf") JNull
    (ok_json JNull)
    = ([Print (AlreadyAtTarget (JStr "A") (Inf false))], Ok false) /\
  update_shopify_price (JInt 21) (JStr "A") (of_decimal 100 0) (JStr "abc") JNull
    (ok_json JNull)
    = ([Print (CannotParsePrice (JStr "A") (JStr "abc"))], Ok false).
Proof.
  split; [|split; [|split]; vm_compute; reflexivity].
  intros sku pos_price target Ht.
  destruct (target_price_finite _ _ Ht) as [t Hf].
  destruct tolerance_value as [E _].
  assert (Hinf : py_float (JStr "inf") = Ok (Inf false)) by reflexivity.
  assert (Hnan : py_float (JStr "nan") = Ok NaN) by reflexivity.
  rewrite !price_to_set_eq, Ht, Hinf, Hnan, Hf, E. split; reflexivity.
Qed.
